(** * OpenMetadata UI: version timeline and activity feed list

    A shallow embedding of two React components of the OpenMetadata UI,

    - [components/EntityVersionTimeLine/EntityVersionTimeLine.tsx]
    - [components/ActivityFeed/ActivityFeedList/ActivityFeedList.tsx]

    and the properties of their filtering, rendering and state handling.

    Conventions.  A component is a pure function from its props and its
    hook state to a view; an event handler is a function on the hook
    state.  A thrown exception is the [None] of an [option] result.  A
    JavaScript string is a [string]: a sequence of code units below 256.
    The objects are those that [JSON.parse] makes: their own properties
    are data, never functions, and their prototypes are the built-in
    ones. *)

From stdpp Require Import base option list strings pretty.
From Stdlib Require Import Ascii ZArith SpecFloat.

Local Open Scope string_scope.
Local Open Scope list_scope.
Set Warnings "-register-all".

(** ** JavaScript values *)

(** The Number values: [NaN], and the others (finite doubles and the two
    infinities), whose type [F] is left to the host. *)
Inductive Number (F : Type) : Type :=
| NaN
| Val (x : F).
Arguments NaN {F}.
Arguments Val {F} x.

(** The values [JSON.parse] produces, and [undefined], which optional
    chaining produces. An object is the list of its own properties. *)
Inductive JsValue (F : Type) : Type :=
| JUndefined
| JNull
| JBool (b : bool)
| JNumber (n : Number F)
| JString (s : string)
| JArray (elements : list (JsValue F))
| JObject (properties : list (string * JsValue F)).
Arguments JUndefined {F}.
Arguments JNull {F}.
Arguments JBool {F} b.
Arguments JNumber {F} n.
Arguments JString {F} s.
Arguments JArray {F} elements.
Arguments JObject {F} properties.

(** The host: the built-in functions, lodash and the utilities of the
    application that the two components call and that are not defined in
    the two source files. *)
Class Host := {
  (** Number values other than NaN *)
  Num : Type;
  (** the Number value of the mathematical value of a StrDecimalLiteral *)
  MV : string -> Num;
  (** Number::toString, radix 10 *)
  Number_toString : Num -> string;
  (** Number.prototype.toFixed(1) on a value other than NaN *)
  Number_toFixed1 : Num -> string;
  (** JSON.parse; [None] when it throws a SyntaxError *)
  JSON_parse : string -> option (JsValue Num);
  (** lodash [toString], [None] when it throws a TypeError, and
      [capitalize] *)
  lodash_toString : JsValue Num -> option string;
  capitalize : string -> string;
  (** what a component returns *)
  ReactNode : Type;
  (** utils/EntityVersionUtils.getSummary; [None] when it throws *)
  getSummary : JsValue Num -> option ReactNode;
  (** new Date(x).toLocaleDateString('en-CA', {hour, minute}); [None] when
      the conversion of [x] throws a TypeError *)
  toLocaleDateString : JsValue Num -> option string
}.

(** ** Strings and numbers of the language *)

Module Js.

(** StrWhiteSpaceChar, among the code units below 256: TAB, LF, VT, FF,
    CR, SP and NBSP. *)
Definition isStrWhiteSpaceChar (c : ascii) : bool :=
  let n := nat_of_ascii c in
  (n =? 9)%nat || (n =? 10)%nat || (n =? 11)%nat || (n =? 12)%nat
  || (n =? 13)%nat || (n =? 32)%nat || (n =? 160)%nat.

Definition isDecimalDigit (c : ascii) : bool :=
  let n := nat_of_ascii c in (48 <=? n)%nat && (n <=? 57)%nat.

Fixpoint trimStart (s : string) : string :=
  match s with
  | String c s' => if isStrWhiteSpaceChar c then trimStart s' else s
  | EmptyString => EmptyString
  end.

(** The longest run of decimal digits at the head of [s], and the rest. *)
Fixpoint spanDigits (s : string) : string * string :=
  match s with
  | String c s' =>
      if isDecimalDigit c
      then let '(d, r) := spanDigits s' in (String c d, r)
      else (EmptyString, s)
  | EmptyString => (EmptyString, EmptyString)
  end.

Definition isEmpty (s : string) : bool :=
  match s with EmptyString => true | _ => false end.

(** An optional sign at the head of [s], and the rest. *)
Definition spanSign (s : string) : string * string :=
  match s with
  | String "+" s' => ("+", s')
  | String "-" s' => ("-", s')
  | _ => (EmptyString, s)
  end.

(** ExponentPart ::: (e | E) SignedInteger, at the head of [s];
    the empty string when [s] does not start with one. *)
Definition spanExponent (s : string) : string :=
  match s with
  | String c s' =>
      if Ascii.eqb c "e" || Ascii.eqb c "E" then
        let '(sign, r) := spanSign s' in
        let '(d, _) := spanDigits r in
        if isEmpty d then EmptyString else String c (sign +:+ d)
      else EmptyString
  | EmptyString => EmptyString
  end.

(** StrUnsignedDecimalLiteral :::
      Infinity
      DecimalDigits . DecimalDigits(opt) ExponentPart(opt)
      . DecimalDigits ExponentPart(opt)
      DecimalDigits ExponentPart(opt)
    The longest prefix of [s] of that form, if there is one. *)
Definition unsignedDecimalPrefix (s : string) : option string :=
  if String.prefix "Infinity" s then Some "Infinity"
  else
    let '(int, r) := spanDigits s in
    match r with
    | String "." r' =>
        let '(frac, r'') := spanDigits r' in
        if isEmpty int && isEmpty frac then None
        else Some (int +:+ "." +:+ frac +:+ spanExponent r'')
    | _ =>
        if isEmpty int then None else Some (int +:+ spanExponent r)
    end.

(** StrDecimalLiteral: an optional sign and a StrUnsignedDecimalLiteral. *)
Definition decimalPrefix (s : string) : option string :=
  let '(sign, r) := spanSign s in
  lit ← unsignedDecimalPrefix r; Some (sign +:+ lit).

Section WithHost.
Context `{Host}.

Definition join (sep : string) (l : list string) : string :=
  match l with
  | [] => EmptyString
  | x :: l' => fold_left (fun acc y => acc +:+ sep +:+ y) l' x
  end.

(** Whether [key] is an own property. *)
Fixpoint hasOwnProperty (key : string) (props : list (string * JsValue Num))
  : bool :=
  match props with
  | [] => false
  | (k, _) :: props' => String.eqb k key || hasOwnProperty key props'
  end.

(** The primitive values: all but the arrays and the objects. *)
Definition isPrimitive (v : JsValue Num) : bool :=
  match v with
  | JArray _ | JObject _ => false
  | _ => true
  end.

(** The abstract operation ToString; [None] when it throws a TypeError.
    An array is joined with commas, its undefined and null elements giving
    the empty string. An object is converted by its method [toString] and
    then by its method [valueOf]: an own property of either name is no
    function and is passed over, [toString] of [Object.prototype] gives
    [[object Object]], and [valueOf] of [Object.prototype] gives the
    object, which is no primitive value. So an object with an own property
    [toString] cannot be converted. *)
Fixpoint ToString (v : JsValue Num) : option string :=
  match v with
  | JUndefined => Some "undefined"
  | JNull => Some "null"
  | JBool b => Some (if b then "true" else "false")
  | JNumber NaN => Some "NaN"
  | JNumber (Val x) => Some (Number_toString x)
  | JString s => Some s
  | JArray l =>
      join ","
        <$> (fix elements (l : list (JsValue Num)) : option (list string) :=
               match l with
               | [] => Some []
               | e :: l' =>
                   s ← match e with
                        | JUndefined | JNull => Some EmptyString
                        | _ => ToString e
                        end;
                   ss ← elements l';
                   Some (s :: ss)
               end) l
  | JObject props =>
      if hasOwnProperty "toString" props then None
      else Some "[object Object]"
  end.

(** The global [parseFloat]: the argument is converted to a string,
    leading white space is dropped, and the longest prefix that is a
    StrDecimalLiteral gives the result; NaN when there is none. It throws
    when the conversion to a string does. *)
Definition parseFloat_string (s : string) : Number Num :=
  match decimalPrefix (trimStart s) with
  | Some numberString => Val (MV numberString)
  | None => NaN
  end.

Definition parseFloat (v : JsValue Num) : option (Number Num) :=
  s ← ToString v; Some (parseFloat_string s).

(** [x.toFixed(1)] *)
Definition toFixed1 (x : Number Num) : string :=
  match x with
  | NaN => "NaN"
  | Val x => Number_toFixed1 x
  end.

(** [o.key] for a key that no built-in prototype defines: an own property
    of an object, undefined on anything else. *)
Fixpoint lookupProperty (key : string) (props : list (string * JsValue Num))
  : JsValue Num :=
  match props with
  | [] => JUndefined
  | (k, v) :: props' => if String.eqb k key then v else lookupProperty key props'
  end.

Definition Get (v : JsValue Num) (key : string) : JsValue Num :=
  match v with
  | JObject props => lookupProperty key props
  | _ => JUndefined
  end.

(** [v?.key] *)
Definition optGet (v : JsValue Num) (key : string) : JsValue Num :=
  match v with
  | JUndefined | JNull => JUndefined
  | _ => Get v key
  end.

End WithHost.

(** [Array.prototype.filter] with a callback that may throw. *)
Fixpoint filterM {A} (f : A -> option bool) (l : list A) : option (list A) :=
  match l with
  | [] => Some []
  | x :: l' =>
      b ← f x;
      kept ← filterM f l';
      Some (if b : bool then x :: kept else kept)
  end.

(** [Array.prototype.map] with a callback that takes the index and may
    throw; [i] is the index of the head of [l]. *)
Fixpoint mapiM {A B} (f : A -> nat -> option B) (i : nat) (l : list A)
  : option (list B) :=
  match l with
  | [] => Some []
  | x :: l' =>
      y ← f x i;
      ys ← mapiM f (S i) l';
      Some (y :: ys)
  end.

(** The truth value of an optional string argument. *)
Definition truthy (value : option string) : bool :=
  match value with
  | Some s => negb (isEmpty s)
  | None => false
  end.

End Js.

Notation "v ?. key" := (Js.optGet v key) (at level 8, left associativity, format "v ?. key").

(** ** EntityVersionTimeLine.tsx *)

Module EntityVersionTimeLine.

(** [EntityHistory]: the revisions of an entity, each one a JSON text. *)
Record EntityHistory := {
  versions : option (list string)
}.

(** The props; [versionHandler] and [onBack] are callbacks of the owner,
    which the view names in [Callback]. *)
Record Props := {
  versionList : EntityHistory;
  currentVersion : string;
  show : bool
}.

Inductive Callback :=
| versionHandler (v : string)
| onBack.

(** The two [useState] cells. *)
Record State := {
  listVisible : bool;
  versionType : string
}.

Definition initialState : State :=
  {| listVisible := false; versionType := "all" |}.

(** One row of the time line, over the numbers [F] and the nodes [R] of
    the host. *)
Record Row (F R : Type) := {
  key : nat;
  (** the connector drawn above the first row, [i === 0] *)
  startOfLine : bool;
  onClick : Callback;
  (** the class [selected] of the dot and the highlight of the label *)
  selected : bool;
  versionLabel : string;
  majorBadge : bool;
  summary : R;
  updatedBy : JsValue F;
  updatedOn : string
}.
Arguments key {F R} _.
Arguments startOfLine {F R} _.
Arguments onClick {F R} _.
Arguments selected {F R} _.
Arguments versionLabel {F R} _.
Arguments majorBadge {F R} _.
Arguments summary {F R} _.
Arguments updatedBy {F R} _.
Arguments updatedOn {F R} _.

Inductive VersionListView (F R : Type) :=
| Rows (rows : list (Row F R))
| NoVersions (message : string).
Arguments Rows {F R} rows.
Arguments NoVersions {F R} message.

(** The drawer. *)
Record View (F R : Type) := {
  open : bool;
  buttonLabel : string;
  (** the drop-down list, with the value it marks, when it is visible *)
  dropDownList : option string;
  closeDrawer : Callback;
  body : VersionListView F R
}.
Arguments open {F R} _.
Arguments buttonLabel {F R} _.
Arguments dropDownList {F R} _.
Arguments closeDrawer {F R} _.
Arguments body {F R} _.

Section Component.
Context `{Host}.

(** [isMajorVersion] of utils/EntityVersionUtils, a file that is not among
    the sources: the component is read for any such predicate. *)
Variable isMajorVersion : string -> string -> bool.

(** The test that the source writes out three times:
[[
    isMajorVersion(
      parseFloat(currV?.changeDescription?.previousVersion)
        .toFixed(1).toString(),
      parseFloat(currV?.version).toFixed(1).toString())
]]
    ([toString] of a string is the string). The two arguments are
    evaluated in their order, and each [parseFloat] may throw. *)
Definition previousVersion (currV : JsValue Num) : JsValue Num :=
  currV?."changeDescription"?."previousVersion".

Definition version (currV : JsValue Num) : JsValue Num :=
  currV?."version".

Definition isMajor (currV : JsValue Num) : option bool :=
  prev ← Js.parseFloat (previousVersion currV);
  curr ← Js.parseFloat (version currV);
  Some (isMajorVersion (Js.toFixed1 prev) (Js.toFixed1 curr)).

(** The [switch] of [getVersionList]: the records that are kept. *)
Definition versionTypeList (versionType : string) (records : list string)
  : option (list string) :=
  if String.eqb versionType "major" then
    Js.filterM (fun v => currV ← JSON_parse v; isMajor currV) records
  else if String.eqb versionType "minor" then
    Js.filterM (fun v => currV ← JSON_parse v; b ← isMajor currV; Some (negb b))
      records
  else
    Some records.

Definition majorVersionChecks (versionType : string) (currV : JsValue Num)
  : option bool :=
  major ← isMajor currV;
  Some (major && String.eqb versionType "all").

(** The element of one record, its parts evaluated in the order of the
    source: the version as a text for the mark of the selected row (the
    click passes the same text to [versionHandler]), the label, the
    badge, the summary and the date. *)
Definition row (versionType currentVersion : string)
    (currV : JsValue Num) (i : nat) : option (Row Num ReactNode) :=
  text ← lodash_toString (version currV);
  number ← Js.parseFloat (version currV);
  badge ← majorVersionChecks versionType currV;
  summary ← getSummary (currV?."changeDescription");
  updatedOn ← toLocaleDateString (currV?."updatedAt");
  Some {| key := i;
          startOfLine := (i =? 0)%nat;
          onClick := versionHandler text;
          selected := String.eqb text currentVersion;
          versionLabel := "v" +:+ Js.toFixed1 number;
          majorBadge := badge;
          summary := summary;
          updatedBy := currV?."updatedBy";
          updatedOn := updatedOn |}.

Definition getVersionList (props : Props) (st : State)
  : option (VersionListView Num ReactNode) :=
  let records := default [] (versions (versionList props)) in
  kept ← versionTypeList (versionType st) records;
  if (length kept =? 0)%nat then
    Some (NoVersions
            ("No " +:+ capitalize (versionType st) +:+ " versions available"))
  else
    rows ← Js.mapiM
             (fun v i =>
                currV ← JSON_parse v;
                row (versionType st) (currentVersion props) currV i)
             0%nat kept;
    Some (Rows rows).

(** The callback of the drop-down list. *)
Definition handleVersionTypeSelection (value : option string) (st : State)
  : State :=
  let st' :=
    if Js.truthy value
    then {| listVisible := listVisible st; versionType := default "" value |}
    else st in
  {| listVisible := false; versionType := versionType st' |}.

(** The button of the header: [setListVisible((visible) => !visible)]. *)
Definition toggleListVisible (st : State) : State :=
  {| listVisible := negb (listVisible st); versionType := versionType st |}.

Definition render (props : Props) (st : State)
  : option (View Num ReactNode) :=
  body ← getVersionList props st;
  Some {| open := show props;
          buttonLabel := capitalize (versionType st);
          dropDownList :=
            if listVisible st then Some (versionType st) else None;
          closeDrawer := onBack;
          body := body |}.

(** *** The records that decode *)

(** [isMajorVersion] on a record: what the callback of the filter
    [major] returns, [None] when it throws. *)
Definition isMajorRecord (v : string) : option bool :=
  currV ← JSON_parse v; isMajor currV.

Definition decodes (v : string) : Prop := is_Some (JSON_parse v).

(** The record is a JSON text, and the two versions of what it decodes to
    can be converted to strings: the callback of the filters returns. *)
Definition classifies (v : string) : Prop := is_Some (isMajorRecord v).

(** The row of the record can be made. *)
Definition renders (versionType currentVersion : string) (v : string)
  : Prop :=
  exists currV,
    JSON_parse v = Some currV
    /\ is_Some (row versionType currentVersion currV 0).

End Component.
End EntityVersionTimeLine.

(** ** ActivityFeedList.tsx *)

Module ActivityFeedList.

(** [Post] and [EntityThread] of the module [Models], with the fields the
    component reads. Time stamps and counts are integers. *)
Record Post := {
  message : string;
  postTs : Z;
  from : string
}.

Record EntityThread := {
  id : string;
  about : string;
  (** the field [message] of a thread *)
  threadMessage : string;
  threadTs : Z;
  createdBy : string;
  postsCount : Z;
  posts : list Post
}.

(** [EntityThread & { relativeDay: string }] *)
Record DatedThread := {
  thread : EntityThread;
  relativeDay : string
}.

(** The three [useState] cells. *)
Record State := {
  selectedThread : option EntityThread;
  selctedThreadId : string;
  isPanelOpen : bool
}.

Definition initialState : State :=
  {| selectedThread := None; selctedThreadId := ""; isPanelOpen := false |}.

(** The props of an [ActivityFeedCard]; a reply card is given a class
    and [feed] only. The card of a thread is given [onThreadIdSelect] as
    its [onThreadSelect]. *)
Record CardProps := {
  cardClassName : string;
  entityLink : option string;
  feed : Post;
  cardIsEntityFeed : option bool;
  isFooterVisible : option bool;
  lastReplyTimeStamp : option Z;
  repliedUsers : option (list string);
  replies : option Z;
  threadId : option string
}.

(** What is rendered. The components of other files are leaves; fragments
    are flattened into the list of children they stand for. *)
Inductive Node :=
| ActivityFeedCard (props : CardProps)
(** the link [View all (N) replies]; a click calls
    [onThreadSelect(selctedThreadId)] and then [onViewMore()] *)
| ViewAllReplies (replies : Z)
(** the text [N replies] or [N reply], and the rule after it *)
| ReplyCount (replies : Z) (noun : string)
(** the editor, [onSave = postFeed] *)
| ActivityFeedEditor
| FeedListSeparatorLabel (relativeDay : string)
| ActivityFeedPanel (selectedThread : EntityThread) (open : bool)
| Onboarding
| Div (className : option string) (children : list Node).

(** [classNames] of one class that may be missing. *)
Definition classNames (className : option string) : string :=
  default EmptyString className.

Definition replyCard (feed : Post) : Node :=
  ActivityFeedCard
    {| cardClassName := "tw-mb-6";
       entityLink := None; feed := feed; cardIsEntityFeed := None;
       isFooterVisible := None; lastReplyTimeStamp := None;
       repliedUsers := None; replies := None; threadId := None |}.

Definition FeedListSeparator (className : option string)
    (relativeDay : string) : Node :=
  Div className [FeedListSeparatorLabel relativeDay].

Definition LatestReplyFeedList (className : option string)
    (feeds : list Post) : Node :=
  Div className (List.map replyCard feeds).

(** The region under the card of the thread that is expanded. *)
Definition replyHeader (replies : Z) : list Node :=
  if (replies >? 3)%Z then [ViewAllReplies replies]
  else if (replies >? 0)%Z
       then [ReplyCount replies (if (replies >? 1)%Z then "replies" else "reply")]
       else [].

Definition expandedThread (feed : EntityThread) : Node :=
  Div (Some "tw-mb-6")
    (replyHeader (postsCount feed)
     ++ [LatestReplyFeedList (Some "tw-mt-3 tw-ml-9") (posts feed);
         ActivityFeedEditor]).

Definition threadNodes (isEntityFeed : bool) (selctedThreadId : string)
    (f : DatedThread) : list Node :=
  let feed := thread f in
  let mainFeed :=
    {| message := threadMessage feed;
       postTs := threadTs feed;
       from := createdBy feed |} in
  let replies := postsCount feed in
  let repliedUsers := List.map from (posts feed) in
  let lastPost := last (posts feed) in
  ActivityFeedCard
    {| cardClassName := "tw-mb-6";
       entityLink := Some (about feed);
       feed := mainFeed;
       cardIsEntityFeed := Some isEntityFeed;
       isFooterVisible := Some (negb (String.eqb selctedThreadId (id feed)));
       lastReplyTimeStamp := postTs <$> lastPost;
       repliedUsers := Some repliedUsers;
       replies := Some replies;
       threadId := Some (id feed) |}
  :: (if String.eqb selctedThreadId (id feed)
      then [expandedThread feed]
      else []).

Definition FeedListBody (updatedFeedList : list DatedThread)
    (relativeDay' : string) (isEntityFeed : bool) (selctedThreadId : string)
  : list Node :=
  concat
    (List.map (threadNodes isEntityFeed selctedThreadId)
       (List.filter (fun f => String.eqb (relativeDay f) relativeDay')
          updatedFeedList)).

Section Component.

(** The state of the owner, on which [postFeedHandler] acts. *)
Variable Owner : Type.

(** [getFeedListWithRelativeDays] of utils/FeedUtils: the feed list with a
    day label on each thread, and the labels. *)
Variable getFeedListWithRelativeDays :
  list EntityThread -> list DatedThread * list string.

Record Props := {
  className : option string;
  feedList : list EntityThread;
  withSidePanel : bool;
  isEntityFeed : bool;
  postFeedHandler : option (string -> string -> Owner -> Owner)
}.

Definition onThreadIdSelect (id' : string) (st : State) : State :=
  {| selectedThread := selectedThread st;
     selctedThreadId := id';
     isPanelOpen := isPanelOpen st |}.

Definition onThreadIdDeselect (st : State) : State :=
  {| selectedThread := selectedThread st;
     selctedThreadId := "";
     isPanelOpen := isPanelOpen st |}.

(** [feedList.find((f) => f.id === id)] *)
Definition findThread (feedList : list EntityThread) (id' : string)
  : option EntityThread :=
  List.find (fun f => String.eqb (id f) id') feedList.

Definition onThreadSelect (feedList : list EntityThread) (id' : string)
    (st : State) : State :=
  match findThread feedList id' with
  | Some thread =>
      {| selectedThread := Some thread;
         selctedThreadId := selctedThreadId st;
         isPanelOpen := isPanelOpen st |}
  | None => st
  end.

Definition onViewMore (st : State) : State :=
  {| selectedThread := selectedThread st;
     selctedThreadId := selctedThreadId st;
     isPanelOpen := true |}.

Definition onCancel (st : State) : State :=
  {| selectedThread := None;
     selctedThreadId := selctedThreadId st;
     isPanelOpen := false |}.

(** [postFeedHandler?.(value, selctedThreadId)] *)
Definition postFeed (props : Props) (st : State) (value : string)
  : Owner -> Owner :=
  match postFeedHandler props with
  | Some handler => handler value (selctedThreadId st)
  | None => fun owner => owner
  end.

(** The click on [View all (N) replies]. *)
Definition viewAllClick (props : Props) (st : State) : State :=
  onViewMore (onThreadSelect (feedList props) (selctedThreadId st) st).

Definition escapeKeyHandler (key : string) (st : State) : State :=
  if String.eqb key "Escape" then onCancel st else st.

Definition render (props : Props) (st : State) : Node :=
  let '(updatedFeedList, relativeDays) :=
    getFeedListWithRelativeDays (feedList props) in
  Div (Some (classNames (className props)))
    (if (0 <? length (feedList props))%nat then
       concat
         (List.map
            (fun d =>
               FeedListSeparator (Some "tw-relative tw-mt-1 tw-mb-3.5") d
               :: FeedListBody updatedFeedList d (isEntityFeed props)
                    (selctedThreadId st))
            relativeDays)
       ++ match selectedThread st with
          | Some thread =>
              if withSidePanel props && isPanelOpen st
              then [ActivityFeedPanel thread (true && isPanelOpen st)]
              else []
          | None => []
          end
     else [Onboarding]).

(** *** The mounted component *)

(** A mounted instance: its props, its state, and whether its [keydown]
    listener is attached to the document. *)
Record Instance := {
  props : Props;
  state : State;
  keydownListener : bool
}.

(** The first render, followed by the two effects: the look-up of the
    selected id in the feed list, and the listener. *)
Definition mount (props : Props) : Instance :=
  {| props := props;
     state := onThreadSelect (feedList props) (selctedThreadId initialState)
                initialState;
     keydownListener := true |}.

Definition unmount (c : Instance) : Instance :=
  {| props := props c; state := state c; keydownListener := false |}.

(** The owner passes a feed list that is another array: the component is
    rendered with it, and the effect that depends on [feedList] runs. *)
Definition feedListChange (feedList' : list EntityThread) (c : Instance)
  : Instance :=
  let props' :=
    {| className := className (props c);
       feedList := feedList';
       withSidePanel := withSidePanel (props c);
       isEntityFeed := isEntityFeed (props c);
       postFeedHandler := postFeedHandler (props c) |} in
  {| props := props';
     state := onThreadSelect feedList' (selctedThreadId (state c)) (state c);
     keydownListener := keydownListener c |}.

(** A [keydown] event of the document. *)
Definition keydown (key : string) (c : Instance) : Instance :=
  {| props := props c;
     state := if keydownListener c
              then escapeKeyHandler key (state c)
              else state c;
     keydownListener := keydownListener c |}.

End Component.

Arguments className {Owner} _.
Arguments feedList {Owner} _.
Arguments withSidePanel {Owner} _.
Arguments isEntityFeed {Owner} _.
Arguments postFeedHandler {Owner} _.
Arguments postFeed {Owner} props st value _.
Arguments viewAllClick {Owner} props st.
Arguments render {Owner} getFeedListWithRelativeDays props st.
Arguments props {Owner} _.
Arguments state {Owner} _.
Arguments keydownListener {Owner} _.
Arguments mount {Owner} props.
Arguments unmount {Owner} c.
Arguments feedListChange {Owner} feedList' c.
Arguments keydown {Owner} key c.

(** A node and the nodes below it. *)
Fixpoint nodes (n : Node) : list Node :=
  n :: match n with
       | Div _ children => concat (List.map nodes children)
       | _ => []
       end.

(** *** What a view shows *)

(** What [pick] finds in a node and in the nodes below it, in the order of
    the document. *)
Definition collect {A : Type} (pick : Node -> option A) (n : Node) : list A :=
  omap pick (nodes n).

Definition collects {A : Type} (pick : Node -> option A) (l : list Node)
  : list A :=
  concat (List.map (collect pick) l).

(** The threads of a day: the filter of [FeedListBody]. *)
Definition threadsOf (updatedFeedList : list DatedThread) (d : string)
  : list DatedThread :=
  List.filter (fun f => String.eqb (relativeDay f) d) updatedFeedList.

(** The labels of the separators. *)
Definition separatorLabels : Node -> list string :=
  collect (fun n => match n with
                    | FeedListSeparatorLabel d => Some d
                    | _ => None
                    end).

(** The ids of the threads that have a card. *)
Definition threadCards : Node -> list string :=
  collect (fun n => match n with
                    | ActivityFeedCard p => threadId p
                    | _ => None
                    end).

(** The editors. *)
Definition editors (n : Node) : nat :=
  length (collect (fun n => match n with
                            | ActivityFeedEditor => Some tt
                            | _ => None
                            end) n).

(** The panels, each with its thread and whether it is open. *)
Definition panels : Node -> list (EntityThread * bool) :=
  collect (fun n => match n with
                    | ActivityFeedPanel t open => Some (t, open)
                    | _ => None
                    end).

End ActivityFeedList.

(** ** utils/EntityVersionUtils *)

Module EntityVersionUtils.

(** The part of [s] before its decimal point. *)
Fixpoint integerPortion (s : string) : string :=
  match s with
  | String c s' => if Ascii.eqb c "." then EmptyString
                   else String c (integerPortion s')
  | EmptyString => EmptyString
  end.

(** Whether [parseFloat] finds a number in [s]. *)
Definition isNumber (s : string) : bool :=
  match Js.decimalPrefix (Js.trimStart s) with
  | Some _ => true
  | None => false
  end.

(** Modelled from the spec: [isMajorVersion] of utils/EntityVersionUtils,
    a file that is not among the sources. The spec: the two versions come
    rounded to one decimal place and formatted as strings, and the result
    is true iff their integer (pre-decimal-point) portions differ; when a
    version is absent or unparseable the predicate evaluates with NaN
    semantics, which compare as not major. *)
Definition isMajorVersion (prev curr : string) : bool :=
  isNumber prev && isNumber curr
  && negb (String.eqb (integerPortion prev) (integerPortion curr)).

End EntityVersionUtils.

(** ** A host to run the components on

    Binary64 numbers with the conversions of ECMA-262 between them and
    decimal text, a JSON reader, and lodash's [toString] and [capitalize].
    The properties below hold for every host; this one serves to evaluate
    the components on concrete revisions. *)

Module Binary64.

Definition prec : Z := 53.
Definition emax : Z := 1024.

(** A Number value other than NaN. *)
Inductive double :=
| Zero (negative : bool)
| Infinite (negative : bool)
| Finite (negative : bool) (m : positive) (e : Z).

Definition of_spec_float (x : spec_float) : double :=
  match x with
  | S754_zero s => Zero s
  | S754_infinity s => Infinite s
  | S754_finite s m e => Finite s m e
  | S754_nan => Zero false
  end.

(** The double nearest to [n / d], ties to even. *)
Definition round (negative : bool) (n : Z) (d : positive) : double :=
  if (n <=? 0)%Z then Zero negative
  else
    let s := Z.max 0 (prec + 3 + Z.log2 (Zpos d) - Z.log2 n) in
    let n' := (n * 2 ^ s)%Z in
    let q := (n' / Zpos d)%Z in
    let r := (n' mod Zpos d)%Z in
    let loc := if (r =? 0)%Z then loc_Exact
               else loc_Inexact (2 * r ?= Zpos d)%Z in
    of_spec_float (binary_round_aux prec emax negative q (- s) loc).

(** [m * 10 ^ e] as a fraction. *)
Definition decimal (m e : Z) : Z * positive :=
  if (0 <=? e)%Z then ((m * 10 ^ e)%Z, 1%positive)
  else (m, Z.to_pos (10 ^ (- e))).

Definition digitValue (c : ascii) : Z := Z.of_nat (nat_of_ascii c) - 48.

Fixpoint digitsValue (acc : Z) (s : string) : Z :=
  match s with
  | String c s' => digitsValue (10 * acc + digitValue c) s'
  | EmptyString => acc
  end.

(** The value of a StrDecimalLiteral. *)
Definition MV (lit : string) : double :=
  let '(sign, r) := Js.spanSign lit in
  let negative := String.eqb sign "-" in
  if String.prefix "Infinity" r then Infinite negative
  else
    let '(int, r1) := Js.spanDigits r in
    let '(frac, r2) :=
      match r1 with
      | String "." r' => Js.spanDigits r'
      | _ => (EmptyString, r1)
      end in
    let e :=
      match r2 with
      | String _ r' =>
          let '(esign, r'') := Js.spanSign r' in
          let '(d, _) := Js.spanDigits r'' in
          if String.eqb esign "-" then (- digitsValue 0 d)%Z
          else digitsValue 0 d
      | EmptyString => 0%Z
      end in
    let m := digitsValue 0 (int +:+ frac) in
    let '(n, d) := decimal m (e - Z.of_nat (String.length frac)) in
    round negative n d.

(** The absolute value of a finite double as a fraction. *)
Definition fraction (m : positive) (e : Z) : Z * positive :=
  if (0 <=? e)%Z then ((Zpos m * 2 ^ e)%Z, 1%positive)
  else (Zpos m, Z.to_pos (2 ^ (- e))).

(** [n / d < 10 ^ e] *)
Definition belowPow10 (n : Z) (d : positive) (e : Z) : bool :=
  if (0 <=? e)%Z then (n <? Zpos d * 10 ^ e)%Z
  else (n * 10 ^ (- e) <? Zpos d)%Z.

(** The least [e >= e0] with [n / d < 10 ^ e], in at most [fuel] steps. *)
Fixpoint decimalExponent (fuel : nat) (n : Z) (d : positive) (e0 : Z) : Z :=
  match fuel with
  | O => e0
  | S fuel' => if belowPow10 n d e0 then e0
               else decimalExponent fuel' n d (e0 + 1)
  end.

(** Number::toString: the digits [n], their number [k] and the exponent
    [e], with [k] the least for which [n * 10 ^ (e - k)] reads back as the
    double [m * 2 ^ e2], and [n] the nearest such. *)
Fixpoint shortest (fuel : nat) (k : Z) (m : positive) (e2 : Z) (e : Z)
  : Z * Z * Z :=
  let '(n, d) := fraction m e2 in
  let '(tn, td) := if (0 <=? e - k)%Z then (n, (Zpos d * 10 ^ (e - k))%Z)
                   else ((n * 10 ^ (k - e))%Z, Zpos d) in
  let lo := (tn / td)%Z in
  let hi := (lo + 1)%Z in
  let reads c :=
    let '(cn, cd) := decimal c (e - k) in
    match round false cn cd with
    | Finite _ m' e' => Pos.eqb m m' && (e2 =? e')%Z
    | _ => false
    end in
  let nearer :=
    match (2 * tn ?= (2 * lo + 1) * td)%Z with
    | Lt => lo
    | Gt => hi
    | Eq => if Z.even lo then lo else hi
    end in
  let other := if (nearer =? lo)%Z then hi else lo in
  let answer c := if (c =? 10 ^ k)%Z then (1, 1, e + 1)%Z else (c, k, e) in
  match fuel with
  | O => answer nearer
  | S fuel' =>
      if reads nearer then answer nearer
      else if reads other then answer other
      else shortest fuel' (k + 1) m e2 e
  end.

Fixpoint zeros (n : nat) : string :=
  match n with
  | O => EmptyString
  | S n' => String "0" (zeros n')
  end.

Definition take (n : nat) (s : string) : string := String.substring 0 n s.
Definition drop (n : nat) (s : string) : string :=
  String.substring n (String.length s - n) s.

(** Number::toString, radix 10. *)
Definition Number_toString (x : double) : string :=
  match x with
  | Zero _ => "0"
  | Infinite negative => if negative then "-Infinity" else "Infinity"
  | Finite negative m e2 =>
      let '(fn, fd) := fraction m e2 in
      let e0 := ((Z.log2 fn - Z.log2 (Zpos fd) - 1) * 30103 / 100000 - 1)%Z in
      let e := decimalExponent 8 fn fd e0 in
      let '(n, k, e) := shortest 17 1 m e2 e in
      let digits := pretty n in
      let body :=
        if (k <=? e)%Z && (e <=? 21)%Z then
          digits +:+ zeros (Z.to_nat (e - k))
        else if (0 <? e)%Z && (e <=? 21)%Z then
          take (Z.to_nat e) digits +:+ "." +:+ drop (Z.to_nat e) digits
        else if (-6 <? e)%Z && (e <=? 0)%Z then
          "0." +:+ zeros (Z.to_nat (- e)) +:+ digits
        else
          let exponent :=
            (if (0 <=? e - 1)%Z then "+" else "-") +:+ pretty (Z.abs (e - 1)) in
          if (k =? 1)%Z then digits +:+ "e" +:+ exponent
          else take 1 digits +:+ "." +:+ drop 1 digits +:+ "e" +:+ exponent in
      (if negative then "-" else "") +:+ body
  end.

(** Number.prototype.toFixed with one fraction digit. *)
Definition Number_toFixed1 (x : double) : string :=
  match x with
  | Zero _ => "0.0"
  | Infinite _ => Number_toString x
  | Finite negative m e2 =>
      let '(fn, fd) := fraction m e2 in
      if belowPow10 fn fd 21 then
        let n := ((20 * fn + Zpos fd) / (2 * Zpos fd))%Z in
        let digits := pretty n in
        let digits := if (String.length digits <=? 1)%nat
                      then "0" +:+ digits else digits in
        let k := String.length digits in
        (if negative then "-" else "")
        +:+ take (k - 1) digits +:+ "." +:+ drop (k - 1) digits
      else Number_toString x
  end.

End Binary64.

Module Json.

Import Binary64.

Definition value : Type := JsValue double.

Definition quote : ascii := ascii_of_nat 34.
Definition backslash : ascii := ascii_of_nat 92.

Definition isJsonWhiteSpace (c : ascii) : bool :=
  let n := nat_of_ascii c in
  (n =? 9)%nat || (n =? 10)%nat || (n =? 13)%nat || (n =? 32)%nat.

Fixpoint skipWhiteSpace (s : string) : string :=
  match s with
  | String c s' => if isJsonWhiteSpace c then skipWhiteSpace s' else s
  | EmptyString => EmptyString
  end.

(** [rest] when [s] is [lit] followed by [rest]. *)
Fixpoint expect (lit s : string) : option string :=
  match lit, s with
  | EmptyString, _ => Some s
  | String a lit', String b s' =>
      if Ascii.eqb a b then expect lit' s' else None
  | _, EmptyString => None
  end.

(** number ::: [-] int [frac] [exp], where int has no leading zero. *)
Definition parseNumber (s : string) : option (value * string) :=
  let '(sign, r) :=
    match s with
    | String "-" s' => ("-", s')
    | _ => (EmptyString, s)
    end in
  let '(int, r1) := Js.spanDigits r in
  let leadingZero :=
    match int with
    | String "0" (String _ _) => true
    | _ => false
    end in
  if Js.isEmpty int || leadingZero then None
  else
    frac ← match r1 with
            | String "." r' =>
                let '(d, r'') := Js.spanDigits r' in
                if Js.isEmpty d then None else Some ("." +:+ d, r'')
            | _ => Some (EmptyString, r1)
            end;
    exp ← match frac.2 with
           | String c r' =>
               if Ascii.eqb c "e" || Ascii.eqb c "E" then
                 let '(esign, r'') := Js.spanSign r' in
                 let '(d, r''') := Js.spanDigits r'' in
                 if Js.isEmpty d then None
                 else Some (String c (esign +:+ d), r''')
               else Some (EmptyString, frac.2)
           | EmptyString => Some (EmptyString, EmptyString)
           end;
    Some (JNumber (Val (MV (sign +:+ int +:+ frac.1 +:+ exp.1))), exp.2).

Definition hexValue (c : ascii) : option nat :=
  let n := nat_of_ascii c in
  if (48 <=? n)%nat && (n <=? 57)%nat then Some (n - 48)%nat
  else if (65 <=? n)%nat && (n <=? 70)%nat then Some (n - 55)%nat
  else if (97 <=? n)%nat && (n <=? 102)%nat then Some (n - 87)%nat
  else None.

(** The characters of a string up to its closing quote, and the rest. An
    escape [\uXXXX] is read when its code unit is below 256: the strings
    here have no other code unit, so a text with an escape of a greater
    one, which [JSON.parse] accepts, is outside what this reader decodes.
    No sample has one. *)
Fixpoint parseChars (s : string) : option (string * string) :=
  match s with
  | EmptyString => None
  | String c s' =>
      if Ascii.eqb c quote then Some (EmptyString, s')
      else if Ascii.eqb c backslash then
        match s' with
        | String "u" (String a (String b (String c1 (String c0 s'')))) =>
            ha ← hexValue a; hb ← hexValue b;
            h1 ← hexValue c1; h0 ← hexValue c0;
            if (ha =? 0)%nat && (hb =? 0)%nat then
              '(cs, r) ← parseChars s'';
              Some (String (ascii_of_nat (16 * h1 + h0)) cs, r)
            else None
        | String e s'' =>
            u ← (if Ascii.eqb e quote then Some quote
                  else if Ascii.eqb e backslash then Some backslash
                  else if Ascii.eqb e "/" then Some "/"%char
                  else if Ascii.eqb e "b" then Some (ascii_of_nat 8)
                  else if Ascii.eqb e "f" then Some (ascii_of_nat 12)
                  else if Ascii.eqb e "n" then Some (ascii_of_nat 10)
                  else if Ascii.eqb e "r" then Some (ascii_of_nat 13)
                  else if Ascii.eqb e "t" then Some (ascii_of_nat 9)
                  else None);
            '(cs, r) ← parseChars s'';
            Some (String u cs, r)
        | EmptyString => None
        end
      else if (nat_of_ascii c <? 32)%nat then None
      else '(cs, r) ← parseChars s'; Some (String c cs, r)
  end.

(** [o[key] = v]: the value of a key that is there is replaced. *)
Fixpoint setProperty (key : string) (v : value)
    (props : list (string * value)) : list (string * value) :=
  match props with
  | [] => [(key, v)]
  | (k, w) :: props' =>
      if String.eqb k key then (k, v) :: props'
      else (k, w) :: setProperty key v props'
  end.

(** A value at the head of [s], and the rest. [parseElements] reads
    the elements of an array after its first, [parseMembers] the members
    of an object from a key on. *)
Fixpoint parseValue (fuel : nat) (s : string) : option (value * string) :=
  match fuel with
  | O => None
  | S fuel' =>
      match skipWhiteSpace s with
      | String c s' =>
          if Ascii.eqb c quote then
            '(cs, r) ← parseChars s'; Some (JString cs, r)
          else if Ascii.eqb c "[" then
            match skipWhiteSpace s' with
            | String "]" r => Some (JArray [], r)
            | _ =>
                '(v, r) ← parseValue fuel' s';
                '(vs, r') ← parseElements fuel' r;
                Some (JArray (v :: vs), r')
            end
          else if Ascii.eqb c "{" then
            match skipWhiteSpace s' with
            | String "}" r => Some (JObject [], r)
            | _ =>
                '(props, r) ← parseMembers fuel' [] s';
                Some (JObject props, r)
            end
          else if Ascii.eqb c "t" then
            r ← expect "rue" s'; Some (JBool true, r)
          else if Ascii.eqb c "f" then
            r ← expect "alse" s'; Some (JBool false, r)
          else if Ascii.eqb c "n" then
            r ← expect "ull" s'; Some (JNull, r)
          else parseNumber (String c s')
      | EmptyString => None
      end
  end
with parseElements (fuel : nat) (s : string)
  : option (list value * string) :=
  match fuel with
  | O => None
  | S fuel' =>
      match skipWhiteSpace s with
      | String "]" r => Some ([], r)
      | String "," r =>
          '(v, r') ← parseValue fuel' r;
          '(vs, r'') ← parseElements fuel' r';
          Some (v :: vs, r'')
      | _ => None
      end
  end
with parseMembers (fuel : nat) (props : list (string * value)) (s : string)
  : option (list (string * value) * string) :=
  match fuel with
  | O => None
  | S fuel' =>
      match skipWhiteSpace s with
      | String c s' =>
          if Ascii.eqb c quote then
            '(key, r) ← parseChars s';
            match skipWhiteSpace r with
            | String ":" r' =>
                '(v, r'') ← parseValue fuel' r';
                let props' := setProperty key v props in
                match skipWhiteSpace r'' with
                | String "}" r''' => Some (props', r''')
                | String "," r''' => parseMembers fuel' props' r'''
                | _ => None
                end
            | _ => None
            end
          else None
      | EmptyString => None
      end
  end.

(** [JSON.parse]: one value, with nothing but white space after it. *)
Definition parse (text : string) : option value :=
  '(v, r) ← parseValue (S (String.length text)) text;
  if Js.isEmpty (skipWhiteSpace r) then Some v else None.

(** lodash [toString]; [None] when it throws a TypeError, which it does
    on an object with an own property [toString]. *)
Fixpoint baseToString (v : value) : option string :=
  match v with
  | JString s => Some s
  | JArray l =>
      Js.join ","
        <$> (fix elements (l : list value) : option (list string) :=
               match l with
               | [] => Some []
               | e :: l' =>
                   s ← baseToString e; ss ← elements l'; Some (s :: ss)
               end) l
  | JUndefined => Some "undefined"
  | JNull => Some "null"
  | JBool b => Some (if b then "true" else "false")
  | JNumber NaN => Some "NaN"
  | JNumber (Val (Zero true)) => Some "-0"
  | JNumber (Val x) => Some (Number_toString x)
  | JObject props =>
      if (fix own (props : list (string * value)) : bool :=
            match props with
            | [] => false
            | (k, _) :: props' => String.eqb k "toString" || own props'
            end) props
      then None
      else Some "[object Object]"
  end.

Definition toString (v : value) : option string :=
  match v with
  | JUndefined | JNull => Some EmptyString
  | _ => baseToString v
  end.

Definition toLower (c : ascii) : ascii :=
  let n := nat_of_ascii c in
  if (65 <=? n)%nat && (n <=? 90)%nat then ascii_of_nat (n + 32) else c.

Definition toUpper (c : ascii) : ascii :=
  let n := nat_of_ascii c in
  if (97 <=? n)%nat && (n <=? 122)%nat then ascii_of_nat (n - 32) else c.

Fixpoint toLowerCase (s : string) : string :=
  match s with
  | String c s' => String (toLower c) (toLowerCase s')
  | EmptyString => EmptyString
  end.

(** lodash [capitalize], on the letters of ASCII. *)
Definition capitalize (s : string) : string :=
  match toLowerCase s with
  | String c s' => String (toUpper c) s'
  | EmptyString => EmptyString
  end.

(** [JSON.stringify], for values whose strings have no control character;
    it serves to write the revisions of the examples. *)
Fixpoint stringifyChars (s : string) : string :=
  match s with
  | String c s' =>
      (if Ascii.eqb c quote || Ascii.eqb c backslash
       then String backslash (String c EmptyString)
       else String c EmptyString) +:+ stringifyChars s'
  | EmptyString => EmptyString
  end.

Definition stringifyString (s : string) : string :=
  String quote (stringifyChars s) +:+ String quote EmptyString.

Fixpoint stringify (v : value) : string :=
  match v with
  | JUndefined | JNull | JNumber NaN | JNumber (Val (Infinite _)) => "null"
  | JBool b => if b then "true" else "false"
  | JNumber (Val x) => Number_toString x
  | JString s => stringifyString s
  | JArray l => "[" +:+ Js.join "," (List.map stringify l) +:+ "]"
  | JObject props =>
      let members :=
        (fix members (props : list (string * value)) : list string :=
           match props with
           | [] => []
           | (_, JUndefined) :: props' => members props'
           | (k, w) :: props' =>
               (stringifyString k +:+ ":" +:+ stringify w) :: members props'
           end) props in
      "{" +:+ Js.join "," members +:+ "}"
  end.

End Json.

(** The host. A summary is shown as the change description it is made
    from, and a date as the text of its time stamp; the conversion of the
    time stamp throws on the objects on which lodash [toString] does. *)
#[export] Instance referenceHost : Host := {|
  Num := Binary64.double;
  MV := Binary64.MV;
  Number_toString := Binary64.Number_toString;
  Number_toFixed1 := Binary64.Number_toFixed1;
  JSON_parse := Json.parse;
  lodash_toString := Json.toString;
  capitalize := Json.capitalize;
  ReactNode := Json.value;
  getSummary := fun changeDescription => Some changeDescription;
  toLocaleDateString := Json.toString
|}.

(** ** Sample data *)

Module Samples.

Import Binary64 EntityVersionTimeLine.

Definition number (literal : string) : Json.value :=
  JNumber (Val (MV literal)).

(** The JSON text of a revision, with or without a change description. *)
Definition revision (previous : option string) (version : string) : string :=
  Json.stringify
    (JObject
       [("version", number version);
        ("updatedBy", JString "admin");
        ("updatedAt", number "1640995200000");
        ("changeDescription",
         match previous with
         | Some p => JObject [("previousVersion", number p);
                              ("fieldsAdded", JArray [])]
         | None => JUndefined
         end)]).

(** The history 1.0, 1.1, 2.0 of the spec, each revision made from the
    one before it, and what the first revision decodes to. *)
Definition r10 : string := revision None "1.0".
Definition r11 : string := revision (Some "1.0") "1.1".
Definition r20 : string := revision (Some "1.1") "2.0".

Definition decoded10 : Json.value :=
  JObject
    [("version", number "1.0");
     ("updatedBy", JString "admin");
     ("updatedAt", number "1640995200000")].

Definition history : list string := [r10; r11; r20].

(** A revision whose previous version is not a number. *)
Definition rText : string :=
  Json.stringify
    (JObject
       [("version", number "1.2");
        ("changeDescription",
         JObject [("previousVersion", JString "n/a")])]).

Definition timelineProps : Props :=
  {| versionList := {| versions := Some history |};
     currentVersion := "1.1";
     show := true |}.

Definition filtering (versionType : string) : State :=
  {| listVisible := false; versionType := versionType |}.

(** The rows of the history under the filter [all], and the third one. *)
Definition allRows : list (Row Binary64.double Json.value) :=
  Eval vm_compute in
    match getVersionList EntityVersionUtils.isMajorVersion timelineProps
            (filtering "all") with
    | Some (Rows rows) => rows
    | _ => []
    end.

Definition row20 : Row Binary64.double Json.value :=
  Eval vm_compute in
    match allRows with
    | [_; _; r] => r
    | _ =>
        {| key := 0; startOfLine := false; onClick := onBack;
           selected := false; versionLabel := EmptyString;
           majorBadge := false; summary := JUndefined;
           updatedBy := JUndefined; updatedOn := EmptyString |}
    end.

(** What the third revision decodes to. *)
Definition decoded20 : Json.value :=
  Eval vm_compute in default JUndefined (Json.parse r20).

(** A revision whose version is an object with a property [toString]:
    it is a JSON text, and its version has no text. *)
Definition rObject : string :=
  Json.stringify
    (JObject [("version", JObject [("toString", number "1")])]).

(** A history without versions, and the drawer of the sample history with
    the drop-down list open. *)
Definition noVersions : Props :=
  {| versionList := {| versions := None |};
     currentVersion := "1.1";
     show := true |}.

Definition listOpen : State :=
  {| listVisible := true; versionType := "all" |}.

Definition drawer : View Binary64.double Json.value :=
  {| open := true;
     buttonLabel := "All";
     dropDownList := Some "all";
     closeDrawer := onBack;
     body := Rows allRows |}.

(** Three threads: one with five replies, of which the feed holds the
    latest three, one with two replies, and one with none. *)
Import ActivityFeedList.

Definition reply (n : Z) (user text : string) : Post :=
  {| message := text; postTs := n; from := user |}.

Definition thread5 : EntityThread :=
  {| id := "t5"; about := "<#E/table/orders>"; threadMessage := "Owner?";
     threadTs := 10; createdBy := "alice"; postsCount := 5;
     posts := [reply 13 "bob" "c"; reply 14 "carol" "d"; reply 15 "bob" "e"] |}.

Definition thread2 : EntityThread :=
  {| id := "t2"; about := "<#E/table/users>"; threadMessage := "Typo";
     threadTs := 20; createdBy := "bob"; postsCount := 2;
     posts := [reply 21 "alice" "a"; reply 22 "bob" "b"] |}.

Definition thread0 : EntityThread :=
  {| id := "t0"; about := "<#E/topic/events>"; threadMessage := "New";
     threadTs := 30; createdBy := "carol"; postsCount := 0;
     posts := [] |}.

(** The thread [t5] as the backend returns it after one more reply. *)
Definition thread5' : EntityThread :=
  {| id := "t5"; about := "<#E/table/orders>"; threadMessage := "Owner?";
     threadTs := 10; createdBy := "alice"; postsCount := 6;
     posts := [reply 14 "carol" "d"; reply 15 "bob" "e"; reply 16 "dan" "f"] |}.

(** An owner that records the replies it is asked to post. *)
Definition Owner : Type := list (string * string).

Definition record (value id' : string) (owner : Owner) : Owner :=
  owner ++ [(value, id')].

(** Every thread under the one label [Today]. *)
Definition today (feedList : list EntityThread)
  : list DatedThread * list string :=
  (List.map (fun t => {| thread := t; relativeDay := "Today" |}) feedList,
   match feedList with [] => [] | _ => ["Today"] end).

Definition feedProps (feedList : list EntityThread) : Props Owner :=
  {| className := None;
     feedList := feedList;
     withSidePanel := true;
     isEntityFeed := false;
     postFeedHandler := Some record |}.

(** The thread [t5] is expanded, and shown in the panel. *)
Definition expanded5 : State :=
  {| selectedThread := None; selctedThreadId := "t5"; isPanelOpen := false |}.

Definition panel5 : Instance Owner :=
  {| props := feedProps [thread5; thread2; thread0];
     state := {| selectedThread := Some thread5;
                 selctedThreadId := "t5";
                 isPanelOpen := true |};
     keydownListener := true |}.

(** The threads from the time stamp 20 on under [Today], the others under
    [Yesterday]. *)
Definition twoDays (feedList : list EntityThread)
  : list DatedThread * list string :=
  (List.map
     (fun t => {| thread := t;
                  relativeDay := if (20 <=? threadTs t)%Z
                                 then "Today" else "Yesterday" |})
     feedList,
   ["Today"; "Yesterday"]).

Definition threads : list EntityThread := [thread5; thread2; thread0].

(** The component after the click on [View all] of the thread [t5]. *)
Definition clicked5 : Instance Owner :=
  {| props := feedProps threads;
     state := viewAllClick (feedProps threads) expanded5;
     keydownListener := true |}.


End Samples.

(** * Properties *)

(** ** Arrays *)

Section Arrays.
Context {A B : Type}.

(** A filter whose callback never throws is the filter by the callback. *)
Lemma filterM_total (f : A -> option bool) (l : list A) :
  Forall (fun x => is_Some (f x)) l ->
  Js.filterM f l = Some (filter (fun x => f x = Some true) l).
Proof.
  induction 1 as [|x l [b Hb] _ IH]; [done|].
  cbn [Js.filterM]. rewrite Hb, IH, filter_cons. cbn [mbind option_bind].
  destruct b; case_decide; naive_solver.
Qed.

Lemma filterM_is_Some (f : A -> option bool) (l kept : list A) :
  Js.filterM f l = Some kept -> Forall (fun x => is_Some (f x)) l.
Proof.
  revert kept. induction l as [|x l IH]; intros kept; [by constructor|].
  cbn [Js.filterM]. destruct (f x) as [b|] eqn:Hb; [|done].
  destruct (Js.filterM f l) as [kept'|] eqn:Hl; [|done].
  intros _. constructor; eauto.
Qed.

(** The results of a map that returns are the results of the callback on
    the elements, in their order and with their indices. *)
Lemma mapiM_lookup (f : A -> nat -> option B) (l : list A) :
  forall (i : nat) (ys : list B),
    Js.mapiM f i l = Some ys ->
    forall (j : nat) (y : B),
      ys !! j = Some y -> exists x, l !! j = Some x /\ f x (i + j)%nat = Some y.
Proof.
  induction l as [|x l IH]; intros i ys; cbn [Js.mapiM].
  - intros [= <-] j y Hj. by rewrite lookup_nil in Hj.
  - destruct (f x i) as [y0|] eqn:Hx; [|done]. cbn.
    destruct (Js.mapiM f (S i) l) as [ys'|] eqn:Hl; [|done]. cbn.
    intros [= <-] [|j] y Hj; cbn in Hj.
    + injection Hj as <-. exists x. by rewrite Nat.add_0_r.
    + destruct (IH _ _ Hl j y Hj) as (x' & Hx' & Hf).
      exists x'. split; [done|]. by rewrite Nat.add_succ_r.
Qed.

Lemma mapiM_total (f : A -> nat -> option B) (l : list A) :
  Forall (fun x => forall i, is_Some (f x i)) l ->
  forall i, is_Some (Js.mapiM f i l).
Proof.
  induction 1 as [|x l Hx _ IH]; intros i; cbn [Js.mapiM]; [by eexists|].
  destruct (Hx i) as [y ->]. destruct (IH (S i)) as [ys ->]. by eexists.
Qed.

Lemma mapiM_length (f : A -> nat -> option B) (l : list A) :
  forall (i : nat) (ys : list B),
    Js.mapiM f i l = Some ys -> length ys = length l.
Proof.
  induction l as [|x l IH]; intros i ys; cbn [Js.mapiM].
  - by intros [= <-].
  - destruct (f x i); [|done]. cbn.
    destruct (Js.mapiM f (S i) l) eqn:Hl; [|done]. cbn.
    intros [= <-]. cbn. f_equal. eauto.
Qed.

Lemma filter_iff_Forall (P Q : A -> Prop)
    `{!forall x, Decision (P x)} `{!forall x, Decision (Q x)} (l : list A) :
  Forall (fun x => P x <-> Q x) l -> filter P l = filter Q l.
Proof.
  induction 1 as [|x l Hx _ IH]; [done|].
  rewrite !filter_cons, IH. destruct Hx. repeat case_decide; naive_solver.
Qed.

End Arrays.

(** ** The version time line *)

Section VersionTimeLine.
Import EntityVersionTimeLine.
Context `{Host}.
Variable isMajorVersion : string -> string -> bool.

Abbreviation isMajor := (isMajor isMajorVersion).
Abbreviation isMajorRecord := (isMajorRecord isMajorVersion).
Abbreviation versionTypeList := (versionTypeList isMajorVersion).
Abbreviation getVersionList := (getVersionList isMajorVersion).
Abbreviation row := (row isMajorVersion).
Abbreviation classifies := (classifies isMajorVersion).
Abbreviation renders := (renders isMajorVersion).

(** *** The conversions that throw *)

(** A primitive value is converted to a string, and read as a number,
    without an exception. *)
Lemma ToString_primitive (x : JsValue Num) :
  Js.isPrimitive x = true -> is_Some (Js.ToString x).
Proof. destruct x as [| | |[|]| | |]; try done; by eexists. Qed.

Lemma parseFloat_primitive (x : JsValue Num) :
  Js.isPrimitive x = true -> is_Some (Js.parseFloat x).
Proof.
  intros [s Hs]%ToString_primitive. unfold Js.parseFloat. rewrite Hs.
  by eexists.
Qed.

(** An object is converted if and only if it has no own property
    [toString]. *)
Lemma ToString_object (props : list (string * JsValue Num)) :
  is_Some (Js.ToString (JObject props))
  <-> Js.hasOwnProperty "toString" props = false.
Proof.
  cbn. destruct (Js.hasOwnProperty _ _); split; done.
Qed.

Lemma parseFloat_is_Some (x : JsValue Num) :
  is_Some (Js.parseFloat x) <-> is_Some (Js.ToString x).
Proof.
  unfold Js.parseFloat. destruct (Js.ToString x); cbn; split; try done.
  all: by intros [? [=]].
Qed.

(** The test [isMajorVersion] returns if and only if the two versions of
    the record are converted. *)
Lemma isMajor_is_Some (currV : JsValue Num) :
  is_Some (isMajor currV)
  <-> is_Some (Js.ToString (previousVersion currV))
      /\ is_Some (Js.ToString (version currV)).
Proof.
  rewrite <- !parseFloat_is_Some. unfold EntityVersionTimeLine.isMajor.
  destruct (Js.parseFloat (previousVersion currV)) as [prev|]; cbn;
    [|split; [by intros [? [=]]|by intros [[? [=]] _]]].
  destruct (Js.parseFloat (version currV)) as [curr|]; cbn;
    [|split; [by intros [? [=]]|by intros [_ [? [=]]]]].
  split; [intros _; split; by eexists|intros _; by eexists].
Qed.

Lemma isMajorRecord_decoded (v : string) (currV : JsValue Num) :
  JSON_parse v = Some currV -> isMajorRecord v = isMajor currV.
Proof. unfold EntityVersionTimeLine.isMajorRecord. by intros ->. Qed.

Lemma classifies_decodes (v : string) : classifies v -> decodes v.
Proof.
  unfold EntityVersionTimeLine.classifies, decodes,
    EntityVersionTimeLine.isMajorRecord.
  destruct (JSON_parse v); [by eexists|by intros [? [=]]].
Qed.

(** A record classifies if and only if it is a JSON text and the two
    versions of what it decodes to are converted. *)
Lemma classifies_iff (v : string) :
  classifies v
  <-> exists currV,
        JSON_parse v = Some currV
        /\ is_Some (Js.ToString (previousVersion currV))
        /\ is_Some (Js.ToString (version currV)).
Proof.
  unfold EntityVersionTimeLine.classifies. split.
  - intros Hv. destruct (classifies_decodes v Hv) as [currV Hdec].
    exists currV. split; [done|]. apply isMajor_is_Some.
    by rewrite <- (isMajorRecord_decoded _ _ Hdec).
  - intros (currV & Hdec & Hto). rewrite (isMajorRecord_decoded _ _ Hdec).
    by apply isMajor_is_Some.
Qed.

(** So does every record that decodes and whose two versions are
    primitive values: numbers, strings, or absent. *)
Lemma classifies_primitive (v : string) (currV : JsValue Num) :
  JSON_parse v = Some currV ->
  Js.isPrimitive (previousVersion currV) = true ->
  Js.isPrimitive (version currV) = true ->
  classifies v.
Proof.
  intros Hdec Hprev Hcurr. apply classifies_iff. exists currV.
  auto using ToString_primitive.
Qed.

(** *** The filters *)

Lemma minor_callback (v : string) :
  (currV ← JSON_parse v; b ← isMajor currV; Some (negb b))
  = negb <$> isMajorRecord v.
Proof.
  unfold EntityVersionTimeLine.isMajorRecord.
  destruct (JSON_parse v) as [currV|]; [|done]. cbn.
  by destruct (EntityVersionTimeLine.isMajor isMajorVersion currV).
Qed.

Lemma versionTypeList_major (records : list string) :
  Forall classifies records ->
  versionTypeList "major" records
  = Some (filter (fun v => isMajorRecord v = Some true) records).
Proof.
  intros Hall. unfold EntityVersionTimeLine.versionTypeList. cbn.
  by rewrite filterM_total.
Qed.

Lemma versionTypeList_minor (records : list string) :
  Forall classifies records ->
  versionTypeList "minor" records
  = Some (filter (fun v => isMajorRecord v = Some false) records).
Proof.
  intros Hall. unfold EntityVersionTimeLine.versionTypeList. cbn.
  rewrite filterM_total.
  - f_equal. apply list_filter_iff. intros v. rewrite minor_callback.
    destruct (EntityVersionTimeLine.isMajorRecord isMajorVersion v)
      as [[]|]; cbn; naive_solver.
  - eapply Forall_impl; [exact Hall|]. intros v [b Hb].
    rewrite minor_callback, Hb. by eexists.
Qed.

Lemma versionTypeList_other (versionType : string) (records : list string) :
  versionType <> "major" -> versionType <> "minor" ->
  versionTypeList versionType records = Some records.
Proof.
  intros Hmajor Hminor. unfold EntityVersionTimeLine.versionTypeList.
  apply String.eqb_neq in Hmajor, Hminor. by rewrite Hmajor, Hminor.
Qed.

Lemma versionTypeList_cases (versionType : string) (records : list string) :
  Forall classifies records ->
  versionTypeList versionType records
  = Some (if String.eqb versionType "major"
          then filter (fun v => isMajorRecord v = Some true) records
          else if String.eqb versionType "minor"
          then filter (fun v => isMajorRecord v = Some false) records
          else records).
Proof.
  intros Hall.
  destruct (String.eqb_spec versionType "major") as [->|Hmajor];
    [by apply versionTypeList_major|].
  destruct (String.eqb_spec versionType "minor") as [->|Hminor];
    [by apply versionTypeList_minor|].
  by apply versionTypeList_other.
Qed.

(** The filters [major] and [minor] return if and only if their callback
    returns on every record of the list; any other filter returns the
    list without a look at its records. *)
Lemma versionTypeList_classifies (versionType : string)
    (records kept : list string) :
  versionTypeList versionType records = Some kept ->
  Forall classifies records \/ kept = records.
Proof.
  unfold EntityVersionTimeLine.versionTypeList.
  repeat case_match; [| |by intros [= <-]; right].
  all: intros Hf; apply filterM_is_Some in Hf; left.
  { done. }
  eapply Forall_impl; [exact Hf|]. intros v. cbn. rewrite minor_callback.
  unfold EntityVersionTimeLine.classifies.
  destruct (EntityVersionTimeLine.isMajorRecord isMajorVersion v);
    [by eexists|by intros [? [=]]].
Qed.

Lemma versionTypeList_returns_iff (versionType : string)
    (records : list string) :
  versionType = "major" \/ versionType = "minor" ->
  is_Some (versionTypeList versionType records)
  <-> Forall classifies records.
Proof.
  intros Hfilter. split.
  - intros [kept Hkept].
    destruct (versionTypeList_classifies _ _ _ Hkept) as [Hall| ->]; [done|].
    revert Hkept. unfold EntityVersionTimeLine.versionTypeList.
    destruct Hfilter as [-> | ->]; cbn; intros Hf;
      apply filterM_is_Some in Hf; [done|].
    eapply Forall_impl; [exact Hf|]. intros v. cbn. rewrite minor_callback.
    unfold EntityVersionTimeLine.classifies.
    destruct (EntityVersionTimeLine.isMajorRecord isMajorVersion v);
      [by eexists|by intros [? [=]]].
  - intros Hall. rewrite (versionTypeList_cases _ _ Hall). by eexists.
Qed.

(** The records that are kept, when the filter returns, are records of
    the list, in the order of the list. *)
Lemma versionTypeList_sublist (versionType : string)
    (records kept : list string) :
  versionTypeList versionType records = Some kept ->
  kept `sublist_of` records.
Proof.
  intros Hkept.
  destruct (versionTypeList_classifies _ _ _ Hkept) as [Hall| ->]; [|done].
  rewrite (versionTypeList_cases _ _ Hall) in Hkept.
  injection Hkept as <-. repeat case_match; auto using sublist_filter.
Qed.

(** C1. On a list of revisions on each of which the test of the filters
    returns (the record is a JSON text and its two versions are converted
    to strings without an exception), the filter [major] keeps exactly
    the records on which [isMajorVersion(previousVersion, version)] is
    true, the filter [minor] exactly those on which it is false, which
    are the records that [major] leaves out, and the filter [all] keeps
    the whole list as it is; whatever the filter, the records that are
    kept stand in the order they have in the list. *)
Theorem getVersionList_filter (records : list string) :
  Forall classifies records ->
  versionTypeList "major" records
  = Some (filter (fun v => isMajorRecord v = Some true) records)
  /\ versionTypeList "minor" records
     = Some (filter (fun v => isMajorRecord v = Some false) records)
  /\ filter (fun v => isMajorRecord v = Some false) records
     = filter (fun v => isMajorRecord v <> Some true) records
  /\ versionTypeList "all" records = Some records
  /\ forall versionType,
       exists kept, versionTypeList versionType records = Some kept
                    /\ kept `sublist_of` records.
Proof.
  intros Hall. split_and!.
  - by apply versionTypeList_major.
  - by apply versionTypeList_minor.
  - apply filter_iff_Forall. eapply Forall_impl; [exact Hall|].
    intros v [b Hb]. rewrite Hb. destruct b; naive_solver.
  - by apply versionTypeList_other.
  - intros versionType. eexists. split; [by apply versionTypeList_cases|].
    repeat case_match; auto using sublist_filter.
Qed.

(** *** The rows *)

(** A row that is made has its parts from the record. *)
Lemma row_Some (versionType currentVersion : string) (currV : JsValue Num)
    (i : nat) (r : Row Num ReactNode) :
  row versionType currentVersion currV i = Some r ->
  exists text number major summary updatedOn,
    lodash_toString (version currV) = Some text
    /\ Js.parseFloat (version currV) = Some number
    /\ isMajor currV = Some major
    /\ getSummary (currV?."changeDescription") = Some summary
    /\ toLocaleDateString (currV?."updatedAt") = Some updatedOn
    /\ r = {| key := i;
              startOfLine := (i =? 0)%nat;
              onClick := versionHandler text;
              selected := String.eqb text currentVersion;
              versionLabel := "v" +:+ Js.toFixed1 number;
              majorBadge := major && String.eqb versionType "all";
              summary := summary;
              updatedBy := currV?."updatedBy";
              updatedOn := updatedOn |}.
Proof.
  unfold EntityVersionTimeLine.row, majorVersionChecks.
  destruct (lodash_toString _) as [text|]; [|done].
  destruct (Js.parseFloat (version currV)) as [number|]; [|done].
  destruct (EntityVersionTimeLine.isMajor isMajorVersion currV) as [major|];
    [|done].
  destruct (getSummary _) as [summary|]; [|done].
  destruct (toLocaleDateString _) as [updatedOn|]; [|done].
  intros [= <-]. by eexists _, _, _, _, _.
Qed.

(** Whether the row of a record can be made depends neither on its place
    in the list, nor on the filter, nor on the current version. *)
Lemma row_is_Some (versionType versionType' currentVersion currentVersion' :
    string) (currV : JsValue Num) (i j : nat) :
  is_Some (row versionType currentVersion currV i) ->
  is_Some (row versionType' currentVersion' currV j).
Proof.
  intros [r Hr].
  destruct (row_Some _ _ _ _ _ Hr)
    as (text & number & major & summary & updatedOn
        & Htext & Hnumber & Hmajor & Hsummary & Hdate & _).
  unfold EntityVersionTimeLine.row, majorVersionChecks.
  rewrite Htext, Hnumber, Hmajor, Hsummary, Hdate. by eexists.
Qed.

Lemma renders_classifies (versionType currentVersion v : string) :
  renders versionType currentVersion v -> classifies v.
Proof.
  intros (currV & Hdec & [r Hr]).
  destruct (row_Some _ _ _ _ _ Hr) as (? & ? & major & ? & ? & _ & _ & Hmajor & _).
  unfold EntityVersionTimeLine.classifies.
  rewrite (isMajorRecord_decoded _ _ Hdec), Hmajor. by eexists.
Qed.

(** The list is rendered when the row of every record can be made. *)
Lemma getVersionList_total (props : Props) (st : State) :
  Forall (renders (versionType st) (currentVersion props))
    (default [] (versions (versionList props))) ->
  is_Some (getVersionList props st).
Proof.
  intros Hall. unfold EntityVersionTimeLine.getVersionList.
  assert (Forall classifies (default [] (versions (versionList props))))
    as Hclass.
  { eapply Forall_impl; [exact Hall|]. intros v. apply renders_classifies. }
  destruct (versionTypeList _ _) as [kept|] eqn:Hkept;
    [|by rewrite (versionTypeList_cases _ _ Hclass) in Hkept].
  cbn. case_match; [by eexists|].
  assert (Forall (renders (versionType st) (currentVersion props)) kept)
    as Hk.
  { apply Forall_forall. intros v Hv.
    eapply Forall_forall; [exact Hall|].
    eapply elem_of_sublist; [exact Hv|].
    by eapply versionTypeList_sublist. }
  match goal with
  | |- context [Js.mapiM ?f ?i ?l] =>
      assert (is_Some (Js.mapiM f i l)) as [rows ->];
        [apply mapiM_total|by eexists]
  end.
  eapply Forall_impl; [exact Hk|]. intros v (currV & -> & Hrow) i.
  cbn. by eapply row_is_Some.
Qed.

(** A rendered row is the row of a record that was kept. *)
Lemma getVersionList_rows (props : Props) (st : State)
    (rows : list (Row Num ReactNode)) (i : nat) (r : Row Num ReactNode) :
  getVersionList props st = Some (Rows rows) ->
  rows !! i = Some r ->
  exists kept v currV,
    versionTypeList (versionType st)
      (default [] (versions (versionList props))) = Some kept
    /\ kept !! i = Some v
    /\ JSON_parse v = Some currV
    /\ row (versionType st) (currentVersion props) currV i = Some r.
Proof.
  unfold EntityVersionTimeLine.getVersionList.
  destruct (versionTypeList _ _) as [kept|] eqn:Hkept; [|done]. cbn.
  case_match; [done|].
  destruct (Js.mapiM _ _ _) as [rows'|] eqn:Hrows; [|done]. cbn.
  intros [= <-] Hi.
  destruct (mapiM_lookup _ _ _ _ Hrows i r Hi) as (v & Hv & Hr).
  destruct (JSON_parse v) as [currV|] eqn:Hdec; [|done].
  cbn in Hr. by exists kept, v, currV.
Qed.

(** C4. On a rendered row the badge [Major] is there if and only if the
    filter is [all] and the revision of the row is major by
    [isMajorVersion]; under the filters [major] and [minor] no row has
    the badge. *)
Theorem majorBadge_iff (props : Props) (st : State)
    (rows : list (Row Num ReactNode)) (i : nat) (r : Row Num ReactNode) :
  getVersionList props st = Some (Rows rows) ->
  rows !! i = Some r ->
  exists v currV,
    v ∈ default [] (versions (versionList props))
    /\ JSON_parse v = Some currV
    /\ row (versionType st) (currentVersion props) currV i = Some r
    /\ (majorBadge r = true
        <-> versionType st = "all" /\ isMajor currV = Some true)
    /\ (versionType st = "major" \/ versionType st = "minor" ->
        majorBadge r = false).
Proof.
  intros Hview Hi.
  destruct (getVersionList_rows _ _ _ _ _ Hview Hi)
    as (kept & v & currV & Hkept & Hv & Hdec & Hr).
  exists v, currV.
  destruct (row_Some _ _ _ _ _ Hr)
    as (text & number & major & summary & updatedOn
        & _ & _ & Hmajor & _ & _ & ->).
  split_and!; [|done|done| |].
  - apply versionTypeList_sublist in Hkept.
    eapply sublist_subseteq; [exact Hkept|].
    by eapply list_elem_of_lookup_2.
  - cbn. rewrite Hmajor, andb_true_iff, String.eqb_eq.
    split; intros [Hl Hr']; split; congruence.
  - cbn. intros [-> | ->]; cbn; by rewrite andb_false_r.
Qed.

(** C8. The callback of the drop-down list closes the list whatever the
    value; it sets [versionType] to the value when the value is a string
    that is not empty, and leaves it as it is when there is no value or
    the value is the empty string. *)
Theorem handleVersionTypeSelection_closes (value : option string)
    (st : State) :
  let st' := handleVersionTypeSelection value st in
  listVisible st' = false
  /\ (forall s, value = Some s -> s <> "" -> versionType st' = s)
  /\ (value = None \/ value = Some "" -> versionType st' = versionType st)
  /\ (versionType st' <> versionType st ->
      exists s, value = Some s /\ s <> "" /\ versionType st' = s).
Proof.
  unfold handleVersionTypeSelection.
  destruct value as [s|]; [destruct s as [|c s]|]; cbn; split_and!.
  all: try done.
  all: try (intros; simplify_eq; by eauto).
  by intros [[=]|[=]].
Qed.

End VersionTimeLine.

(** ** Revisions without a previous version *)

Section PreviousVersion.
Import EntityVersionTimeLine.
Context `{Host}.

Abbreviation specMajor := (isMajor EntityVersionUtils.isMajorVersion).

(** An absent value is not a number. *)
Lemma parseFloat_undefined :
  Js.parseFloat (JUndefined : JsValue Num) = Some NaN.
Proof. reflexivity. Qed.

(** A record without a change description, or whose change description
    has no previous version, has an absent previous version. *)
Lemma previousVersion_absent (props : list (string * JsValue Num)) :
  Js.lookupProperty "changeDescription" props = JUndefined ->
  previousVersion (JObject props) = JUndefined.
Proof. unfold previousVersion. cbn. by intros ->. Qed.

(** A value is not read as a number when it is converted to a text that,
    without the white space at its head, does not start with a decimal
    literal. *)
Lemma parseFloat_NaN_iff (v : JsValue Num) :
  Js.parseFloat v = Some NaN
  <-> exists s, Js.ToString v = Some s
                /\ Js.decimalPrefix (Js.trimStart s) = None.
Proof.
  unfold Js.parseFloat, Js.parseFloat_string.
  destruct (Js.ToString v) as [s|]; cbn;
    [|split; [done|by intros (? & [=] & _)]].
  destruct (Js.decimalPrefix (Js.trimStart s)) eqn:Hs; split.
  - by intros [=].
  - intros (s' & [= <-] & Hs'). by rewrite Hs in Hs'.
  - intros _. by exists s.
  - done.
Qed.

Example parseFloat_null : Js.parseFloat (JNull : JsValue Num) = Some NaN.
Proof. reflexivity. Qed.

Example parseFloat_text :
  Js.parseFloat (JString "n/a" : JsValue Num) = Some NaN.
Proof. reflexivity. Qed.

(** An object is read as [NaN], unless it has an own property [toString]:
    then its conversion throws. *)
Example parseFloat_object (props : list (string * JsValue Num)) :
  Js.parseFloat (JObject props)
  = if Js.hasOwnProperty "toString" props then None else Some NaN.
Proof. cbn. by destruct (Js.hasOwnProperty _ _). Qed.

(** [NaN] is formatted as the text [NaN], which is not major against
    anything. *)
Lemma isMajorVersion_NaN (curr : string) :
  EntityVersionUtils.isMajorVersion (Js.toFixed1 (NaN : Number Num)) curr
  = false.
Proof. reflexivity. Qed.

Lemma isMajor_NaN (currV : JsValue Num) :
  Js.parseFloat (previousVersion currV) = Some NaN ->
  specMajor currV <> Some true
  /\ (is_Some (Js.parseFloat (version currV)) -> specMajor currV = Some false).
Proof.
  intros Hprev. unfold EntityVersionTimeLine.isMajor. rewrite Hprev. cbn.
  destruct (Js.parseFloat (version currV)) as [curr|]; cbn.
  - by rewrite isMajorVersion_NaN.
  - split; [done|]. by intros [? [=]].
Qed.

(** C3. A revision whose [changeDescription.previousVersion] is absent, or
    is not read as a number by [parseFloat], is never classified as
    major, and is classified as not major as soon as its own version is
    converted without an exception: where the filters return, the filter
    [major] leaves it out and the filter [minor] keeps it, and a row that
    is made of it has no badge [Major] under any filter. *)
Theorem absent_previousVersion_not_major (v : string) (currV : JsValue Num) :
  JSON_parse v = Some currV ->
  previousVersion currV = JUndefined
  \/ Js.parseFloat (previousVersion currV) = Some NaN ->
  (specMajor currV <> Some true
   /\ (is_Some (Js.parseFloat (version currV)) ->
       specMajor currV = Some false))
  /\ (forall records,
        Forall (classifies EntityVersionUtils.isMajorVersion) records ->
        exists major minor,
          versionTypeList EntityVersionUtils.isMajorVersion "major" records
          = Some major
          /\ (v ∉ major)
          /\ versionTypeList EntityVersionUtils.isMajorVersion "minor" records
             = Some minor
          /\ (v ∈ records -> v ∈ minor))
  /\ (forall versionType currentVersion i r,
        row EntityVersionUtils.isMajorVersion versionType currentVersion
          currV i = Some r ->
        majorBadge r = false).
Proof.
  intros Hdec Hprev.
  assert (Js.parseFloat (previousVersion currV) = Some NaN) as HNaN.
  { destruct Hprev as [-> | ->]; [apply parseFloat_undefined|done]. }
  destruct (isMajor_NaN _ HNaN) as [Hnever Hminor].
  split_and!; [done|done| |].
  - intros records Hall.
    eexists _, _. split_and!;
      [by apply versionTypeList_major| |by apply versionTypeList_minor|].
    + rewrite list_elem_of_filter,
        (isMajorRecord_decoded _ _ _ Hdec). by intros [? _].
    + intros Hv. apply list_elem_of_filter. split; [|done].
      rewrite (isMajorRecord_decoded _ _ _ Hdec).
      assert (is_Some (specMajor currV)) as [[] Hb].
      { rewrite <- (isMajorRecord_decoded _ _ _ Hdec).
        by eapply Forall_forall in Hall. }
      * done.
      * done.
  - intros versionType currentVersion i r Hr.
    destruct (row_Some _ _ _ _ _ _ Hr)
      as (text & number & major & summary & updatedOn
          & _ & _ & Hmajor & _ & _ & ->).
    cbn. destruct major; [done|done].
Qed.

End PreviousVersion.

(** ** The version time line on the sample history *)

Section TimeLineSamples.
Import EntityVersionTimeLine Samples.

Lemma history_decodes : Forall decodes history.
Proof.
  unfold history.
  apply List.Forall_cons; [vm_compute; eexists; reflexivity|].
  apply List.Forall_cons; [vm_compute; eexists; reflexivity|].
  apply List.Forall_cons; [vm_compute; eexists; reflexivity|].
  apply List.Forall_nil.
Defined.

Lemma history_classifies :
  Forall (classifies EntityVersionUtils.isMajorVersion) history.
Proof.
  unfold history.
  apply List.Forall_cons; [vm_compute; eexists; reflexivity|].
  apply List.Forall_cons; [vm_compute; eexists; reflexivity|].
  apply List.Forall_cons; [vm_compute; eexists; reflexivity|].
  apply List.Forall_nil.
Defined.

Lemma getVersionList_filter_witness :
  versionTypeList EntityVersionUtils.isMajorVersion "major" history
  = Some [r20]
  /\ versionTypeList EntityVersionUtils.isMajorVersion "minor" history
     = Some [r10; r11]
  /\ versionTypeList EntityVersionUtils.isMajorVersion "all" history
     = Some [r10; r11; r20].
Proof.
  destruct (getVersionList_filter EntityVersionUtils.isMajorVersion history
              history_classifies) as (Hmajor & Hminor & _ & Hall & _).
  rewrite Hmajor, Hminor, Hall.
  split; [|split]; vm_compute; reflexivity.
Defined.

Lemma absent_previousVersion_not_major_witness :
  isMajor EntityVersionUtils.isMajorVersion decoded10 = Some false.
Proof.
  assert (JSON_parse r10 = Some decoded10) as Hdec
    by (vm_compute; reflexivity).
  assert (previousVersion decoded10 = JUndefined) as Hprev
    by (vm_compute; reflexivity).
  assert (is_Some (Js.parseFloat (version decoded10))) as Hcurr
    by (vm_compute; eexists; reflexivity).
  exact (proj2 (proj1 (absent_previousVersion_not_major (H := referenceHost)
                         r10 decoded10 Hdec (or_introl Hprev))) Hcurr).
Defined.

(** The examples of the spec for [isMajorVersion]. *)
Example isMajorVersion_19_20 :
  EntityVersionUtils.isMajorVersion "1.9" "2.0" = true.
Proof. reflexivity. Qed.

Example isMajorVersion_11_12 :
  EntityVersionUtils.isMajorVersion "1.1" "1.2" = false.
Proof. reflexivity. Qed.

Example isMajorVersion_undefined :
  EntityVersionUtils.isMajorVersion "undefined" "1.0" = false.
Proof. reflexivity. Qed.

(** A previous version that is a text without a number: the revision is
    minor. *)
Example unparseable_previousVersion_minor :
  versionTypeList EntityVersionUtils.isMajorVersion "major" [rText; r20]
  = Some [r20]
  /\ versionTypeList EntityVersionUtils.isMajorVersion "minor" [rText; r20]
     = Some [rText].
Proof. split; vm_compute; reflexivity. Qed.

(** A text that is not JSON makes the filter throw. *)
Example versionTypeList_throws :
  versionTypeList EntityVersionUtils.isMajorVersion "major" [r10; "{"]
  = None.
Proof. vm_compute. reflexivity. Qed.

(** So does a record whose version is an object with an own property
    [toString]: [parseFloat] cannot convert it. The filter [all] returns
    the list, and the rows throw. *)
Example versionTypeList_throws_TypeError :
  JSON_parse rObject
  = Some (JObject [("version", JObject [("toString", number "1")])])
  /\ versionTypeList EntityVersionUtils.isMajorVersion "major" [r10; rObject]
     = None
  /\ versionTypeList EntityVersionUtils.isMajorVersion "minor" [r10; rObject]
     = None
  /\ versionTypeList EntityVersionUtils.isMajorVersion "all" [r10; rObject]
     = Some [r10; rObject]
  /\ getVersionList EntityVersionUtils.isMajorVersion
       {| versionList := {| versions := Some [r10; rObject] |};
          currentVersion := "1"; show := true |} (filtering "all")
     = None.
Proof. split_and!; vm_compute; reflexivity. Qed.

(** Under the filter [major] the history shows one row, without the
    badge; under [all] the same revision has it. *)
Example major_filter_no_badge :
  (fun view => match view with
               | Some (Rows rows) => List.map majorBadge rows
               | _ => []
               end)
    (getVersionList EntityVersionUtils.isMajorVersion timelineProps
       (filtering "major")) = [false]
  /\ List.map majorBadge allRows = [false; false; true].
Proof. split; vm_compute; reflexivity. Qed.

Lemma majorBadge_iff_witness :
  exists v currV,
    v ∈ history
    /\ JSON_parse v = Some currV
    /\ (majorBadge row20 = true
        <-> "all" = "all"
            /\ isMajor EntityVersionUtils.isMajorVersion currV = Some true).
Proof.
  assert (getVersionList EntityVersionUtils.isMajorVersion timelineProps
            (filtering "all") = Some (Rows allRows)) as Hview
    by (vm_compute; reflexivity).
  assert (allRows !! 2%nat = Some row20) as Hi
    by (vm_compute; reflexivity).
  destruct (majorBadge_iff (H := referenceHost)
              EntityVersionUtils.isMajorVersion timelineProps
              (filtering "all") allRows 2 row20 Hview Hi)
    as (v & currV & Hv & Hdec & _ & Hbadge & _).
  exists v, currV. exact (conj Hv (conj Hdec Hbadge)).
Defined.

Lemma handleVersionTypeSelection_closes_witness :
  listVisible (handleVersionTypeSelection (Some "major")
                 {| listVisible := true; versionType := "all" |}) = false
  /\ versionType (handleVersionTypeSelection (Some "major")
                    {| listVisible := true; versionType := "all" |}) = "major"
  /\ versionType (handleVersionTypeSelection (Some "")
                    {| listVisible := true; versionType := "minor" |}) = "minor".
Proof.
  destruct (handleVersionTypeSelection_closes (Some "major")
              {| listVisible := true; versionType := "all" |})
    as (Hclosed & Hset & _).
  destruct (handleVersionTypeSelection_closes (Some "")
              {| listVisible := true; versionType := "minor" |})
    as (_ & _ & Hkept & _).
  split; [exact Hclosed|]. split.
  - apply Hset; [reflexivity|discriminate].
  - apply Hkept. right. reflexivity.
Defined.

End TimeLineSamples.
(** ** The activity feed list *)

Section ActivityFeed.
Import ActivityFeedList.
Variable Owner : Type.
Variable getFeedListWithRelativeDays :
  list EntityThread -> list DatedThread * list string.

Abbreviation render := (render getFeedListWithRelativeDays).

(** *** The look-up of a thread by its id *)

(** [find] returns the first thread of the list that has the id. *)
Lemma findThread_Some (feedList : list EntityThread) (id' : string)
    (t : EntityThread) :
  findThread feedList id' = Some t <->
  exists before after,
    feedList = before ++ t :: after
    /\ id t = id'
    /\ Forall (fun u => id u <> id') before.
Proof.
  unfold findThread. induction feedList as [|u l IH]; cbn.
  - split; [done|]. intros (before & after & Hl & _). by destruct before.
  - destruct (String.eqb_spec (id u) id') as [Hu|Hu].
    + split.
      * intros [= <-]. by exists [], l.
      * intros (before & after & Hl & Ht & Hbefore).
        destruct before as [|u' before]; cbn in Hl.
        -- by injection Hl as <- _.
        -- injection Hl as <- _. by apply Forall_cons in Hbefore as [? _].
    + rewrite IH. split.
      * intros (before & after & -> & Ht & Hbefore).
        exists (u :: before), after. split_and!; [done..|].
        by apply Forall_cons.
      * intros (before & after & Hl & Ht & Hbefore).
        destruct before as [|u' before]; cbn in Hl.
        -- injection Hl as <- _. done.
        -- injection Hl as <- ->.
           apply Forall_cons in Hbefore as [_ Hbefore].
           by exists before, after.
Qed.

Lemma findThread_None (feedList : list EntityThread) (id' : string) :
  findThread feedList id' = None <-> Forall (fun u => id u <> id') feedList.
Proof.
  unfold findThread. induction feedList as [|u l IH]; cbn.
  - split; [by constructor|done].
  - rewrite Forall_cons.
    destruct (String.eqb_spec (id u) id') as [Hu|Hu].
    + split; [done|]. by intros [? _].
    + rewrite IH. split; [done|]. by intros [_ ?].
Qed.

(** A list that holds a thread with the id gives one of its threads with
    the id. *)
Lemma findThread_elem_of (feedList : list EntityThread) (id' : string)
    (t : EntityThread) :
  t ∈ feedList -> id t = id' ->
  exists t', findThread feedList id' = Some t' /\ t' ∈ feedList /\ id t' = id'.
Proof.
  intros Ht Hid.
  destruct (findThread feedList id') as [t'|] eqn:Hfind.
  - exists t'. apply findThread_Some in Hfind as (before & after & -> & ? & _).
    split_and!; [done| |done].
    apply elem_of_app. right. by apply elem_of_cons; left.
  - apply findThread_None in Hfind.
    rewrite Forall_forall in Hfind. by destruct (Hfind t Ht).
Qed.

(** C7. [onThreadSelect] stores, as the selected thread, the thread that
    the look-up of the id in the feed list finds, and changes nothing
    else; when no thread of the list has the id, it leaves the whole state
    as it is. It is a total function: nothing is thrown. *)
Theorem onThreadSelect_lookup (feedList : list EntityThread) (id' : string)
    (st : State) :
  (forall t, findThread feedList id' = Some t ->
     onThreadSelect feedList id' st
     = {| selectedThread := Some t;
          selctedThreadId := selctedThreadId st;
          isPanelOpen := isPanelOpen st |})
  /\ (forall t, t ∈ feedList -> id t = id' ->
        exists t', findThread feedList id' = Some t'
                   /\ t' ∈ feedList /\ id t' = id')
  /\ ((forall t, t ∈ feedList -> id t <> id') ->
      onThreadSelect feedList id' st = st).
Proof.
  split_and!.
  - intros t Hfind. unfold onThreadSelect. by rewrite Hfind.
  - apply findThread_elem_of.
  - intros Hnone. unfold onThreadSelect.
    by rewrite (proj2 (findThread_None feedList id'));
      [|apply Forall_forall].
Qed.

(** C5. When the owner passes another feed list, the look-up runs again
    with the selected id that the component holds, on the new list: when
    the new list has a thread with that id, the selected thread is, after
    the change, the thread of the new list with that id, and the rest of
    the state is as before. *)
Theorem feedListChange_reselects (c : Instance Owner)
    (feedList' : list EntityThread) (t : EntityThread) :
  t ∈ feedList' ->
  id t = selctedThreadId (state c) ->
  let c' := feedListChange feedList' c in
  state c' = onThreadSelect feedList' (selctedThreadId (state c)) (state c)
  /\ feedList (props c') = feedList'
  /\ selctedThreadId (state c') = selctedThreadId (state c)
  /\ isPanelOpen (state c') = isPanelOpen (state c)
  /\ exists t',
       selectedThread (state c') = Some t'
       /\ t' ∈ feedList'
       /\ id t' = selctedThreadId (state c)
       /\ ((forall u, u ∈ feedList' -> id u = id t -> u = t) -> t' = t).
Proof.
  intros Ht Hid c'.
  destruct (findThread_elem_of _ _ _ Ht Hid) as (t' & Hfind & Ht' & Hid').
  subst c'. unfold feedListChange, onThreadSelect. cbn. rewrite Hfind. cbn.
  split_and!; [done..|].
  exists t'. split_and!; [done..|].
  intros Hunique. apply Hunique; [done|congruence].
Qed.

(** The listener is attached by the mount, kept by a change of the feed
    list and by a key, and detached by the unmount. *)
Lemma keydownListener_mount (props : Props Owner) :
  keydownListener (mount props) = true.
Proof. reflexivity. Qed.

Lemma keydownListener_feedListChange (feedList' : list EntityThread)
    (c : Instance Owner) :
  keydownListener (feedListChange feedList' c) = keydownListener c.
Proof. reflexivity. Qed.

Lemma keydownListener_keydown (key : string) (c : Instance Owner) :
  keydownListener (keydown key c) = keydownListener c.
Proof. reflexivity. Qed.

Lemma keydown_unmounted (key : string) (c : Instance Owner) :
  state (keydown key (unmount c)) = state c.
Proof. reflexivity. Qed.

(** A key other than Escape changes nothing. *)
Lemma keydown_other (key : string) (c : Instance Owner) :
  key <> "Escape" -> state (keydown key c) = state c.
Proof.
  intros Hkey%String.eqb_neq. unfold keydown, escapeKeyHandler. cbn.
  rewrite Hkey. by destruct (keydownListener c).
Qed.



(** C9. With an empty feed list the component renders the onboarding
    placeholder and nothing else: no separator of a day, no thread, no
    panel. *)
Theorem empty_feedList_onboarding (props : Props Owner) (st : State) :
  feedList props = [] ->
  render props st = Div (Some (classNames (className props))) [Onboarding]
  /\ nodes (render props st)
     = [Div (Some (classNames (className props))) [Onboarding]; Onboarding].
Proof.
  intros Hempty. unfold ActivityFeedList.render. rewrite Hempty.
  by destruct (getFeedListWithRelativeDays []) as [updated days].
Qed.

(** C10. [postFeed] passes the message and the selected id that the
    component holds to the [postFeedHandler] of the owner; the id is the
    empty string when no thread is selected, as at the start and after
    [onThreadIdDeselect]; without a handler nothing happens. *)
Theorem postFeed_forwards (props : Props Owner) (st : State)
    (value : string) :
  (forall handler, postFeedHandler props = Some handler ->
     postFeed props st value = handler value (selctedThreadId st)
     /\ (selctedThreadId st = "" -> postFeed props st value = handler value "")
     /\ postFeed props initialState value = handler value ""
     /\ postFeed props (onThreadIdDeselect st) value = handler value "")
  /\ (postFeedHandler props = None ->
      forall owner, postFeed props st value owner = owner).
Proof.
  unfold postFeed. split.
  - intros handler ->. split_and!; [done| |done..]. by intros ->.
  - by intros ->.
Qed.

(** *** The region of the replies *)

Lemma replyHeader_cases (replies : Z) :
  ((3 < replies)%Z -> replyHeader replies = [ViewAllReplies replies])
  /\ (replies = 1%Z -> replyHeader replies = [ReplyCount 1 "reply"])
  /\ ((1 < replies <= 3)%Z ->
      replyHeader replies = [ReplyCount replies "replies"])
  /\ ((replies <= 0)%Z -> replyHeader replies = []).
Proof.
  unfold replyHeader. split_and!.
  - intros Hn. by rewrite (proj2 (Z.gtb_lt _ _) Hn).
  - by intros ->.
  - intros [Hlo Hhi].
    destruct (Z.gtb_spec replies 3); [lia|].
    destruct (Z.gtb_spec replies 0); [|lia].
    by destruct (Z.gtb_spec replies 1); [|lia].
  - intros Hn.
    destruct (Z.gtb_spec replies 3); [lia|].
    by destruct (Z.gtb_spec replies 0); [lia|].
Qed.

(** C2, as the component does it. The thread that is expanded shows,
    under its card: the link [View all (N) replies] and no count when it
    has more than 3 replies; the count [N reply] or [N replies] and no
    link when it has 1 to 3; neither when it has none; and then, in every
    case, the list of the posts that the thread holds, one card a post,
    and the editor. *)
Theorem expandedThread_region (isEntityFeed : bool) (f : DatedThread) :
  let feed := thread f in
  let replies := postsCount feed in
  (exists card,
     threadNodes isEntityFeed (id feed) f = [card; expandedThread feed])
  /\ expandedThread feed
     = Div (Some "tw-mb-6")
         (replyHeader replies
          ++ [Div (Some "tw-mt-3 tw-ml-9") (List.map replyCard (posts feed));
              ActivityFeedEditor])
  /\ ((3 < replies)%Z -> replyHeader replies = [ViewAllReplies replies])
  /\ ((1 <= replies <= 3)%Z ->
      replyHeader replies
      = [ReplyCount replies (if (replies =? 1)%Z then "reply" else "replies")])
  /\ ((replies <= 0)%Z -> replyHeader replies = []).
Proof.
  intros feed replies.
  destruct (replyHeader_cases replies) as (Hmany & Hone & Hfew & Hnone).
  split_and!; [|done|done| |done].
  - unfold threadNodes. fold feed. rewrite String.eqb_refl. by eexists.
  - intros [Hlo Hhi]. destruct (Z.eqb_spec replies 1) as [->|Hne].
    + by apply Hone.
    + apply Hfew. lia.
Qed.

End ActivityFeed.

(** ** The activity feed list on the sample threads *)

Section FeedSamples.
Import ActivityFeedList Samples.

(** The sample instance is what the mount, a click on the footer of the
    card of [t5] and a click on its link [View all] lead to. *)
Example panel5_reached :
  let c := mount (feedProps [thread5; thread2; thread0]) in
  state panel5 = viewAllClick (props c) (onThreadIdSelect "t5" (state c)).
Proof. reflexivity. Qed.

(** C2, as the spec states it, fails on the thread with five replies:
    under the link [View all (5) replies] the component renders the cards
    of the three posts that the thread holds. *)
Lemma viewAll_hides_replies_counterexample :
  (3 < postsCount thread5)%Z
  /\ threadNodes false "t5" {| thread := thread5; relativeDay := "Today" |}
     = [ActivityFeedCard
          {| cardClassName := "tw-mb-6";
             entityLink := Some "<#E/table/orders>";
             feed := {| message := "Owner?"; postTs := 10; from := "alice" |};
             cardIsEntityFeed := Some false;
             isFooterVisible := Some false;
             lastReplyTimeStamp := Some 15%Z;
             repliedUsers := Some ["bob"; "carol"; "bob"];
             replies := Some 5%Z;
             threadId := Some "t5" |};
        Div (Some "tw-mb-6")
          [ViewAllReplies 5;
           Div (Some "tw-mt-3 tw-ml-9")
             [replyCard (reply 13 "bob" "c");
              replyCard (reply 14 "carol" "d");
              replyCard (reply 15 "bob" "e")];
           ActivityFeedEditor]]
  /\ ~ (forall feed : EntityThread,
          (3 < postsCount feed)%Z ->
          forall post, replyCard post ∉ nodes (expandedThread feed)).
Proof.
  split; [reflexivity|]. split; [reflexivity|].
  intros Hclaim.
  apply (Hclaim thread5 eq_refl (reply 13 "bob" "c")).
  cbn. do 3 (apply elem_of_cons; right). by apply elem_of_cons; left.
Qed.

Lemma expandedThread_region_witness :
  replyHeader (postsCount thread5) = [ViewAllReplies 5]
  /\ replyHeader (postsCount thread2) = [ReplyCount 2 "replies"]
  /\ replyHeader (postsCount thread0) = [].
Proof.
  destruct (expandedThread_region false
              {| thread := thread5; relativeDay := "Today" |})
    as (_ & _ & Hmany & _).
  destruct (expandedThread_region false
              {| thread := thread2; relativeDay := "Today" |})
    as (_ & _ & _ & Hfew & _).
  destruct (expandedThread_region false
              {| thread := thread0; relativeDay := "Today" |})
    as (_ & _ & _ & _ & Hnone).
  split; [apply Hmany; reflexivity|].
  split; [apply Hfew; split; discriminate|].
  apply Hnone. discriminate.
Defined.

Lemma onThreadSelect_lookup_witness :
  onThreadSelect [thread5; thread2; thread0] "t2" initialState
  = {| selectedThread := Some thread2;
       selctedThreadId := "";
       isPanelOpen := false |}
  /\ onThreadSelect [thread5; thread2] "t0" (state panel5) = state panel5.
Proof.
  destruct (onThreadSelect_lookup [thread5; thread2; thread0] "t2"
              initialState) as (Hfound & _).
  destruct (onThreadSelect_lookup [thread5; thread2] "t0" (state panel5))
    as (_ & _ & Hnone).
  split; [apply Hfound; reflexivity|].
  apply Hnone. intros t Ht.
  apply elem_of_cons in Ht as [-> | Ht]; [discriminate|].
  apply elem_of_cons in Ht as [-> | Ht]; [discriminate|].
  by apply elem_of_nil in Ht.
Defined.

Lemma feedListChange_reselects_witness :
  selectedThread (state (feedListChange [thread0; thread5'] panel5))
  = Some thread5'.
Proof.
  assert (thread5' ∈ [thread0; thread5']) as Hin.
  { apply elem_of_cons. right. apply elem_of_cons. by left. }
  destruct (feedListChange_reselects Owner panel5 [thread0; thread5']
              thread5' Hin eq_refl)
    as (_ & _ & _ & _ & t' & Hselected & _ & _ & Hunique).
  rewrite Hselected. f_equal. apply Hunique. intros u Hu Hid.
  apply elem_of_cons in Hu as [-> | Hu]; [discriminate|].
  apply elem_of_cons in Hu as [-> | Hu]; [reflexivity|].
  by apply elem_of_nil in Hu.
Defined.



Lemma empty_feedList_onboarding_witness :
  render today (feedProps []) initialState = Div (Some "") [Onboarding].
Proof.
  exact (proj1 (empty_feedList_onboarding Owner today (feedProps [])
                  initialState eq_refl)).
Defined.

Lemma postFeed_forwards_witness :
  postFeed (feedProps [thread5]) expanded5 "Thanks" [] = [("Thanks", "t5")]
  /\ postFeed (feedProps [thread5]) initialState "Hello" [] = [("Hello", "")].
Proof.
  destruct (postFeed_forwards Owner (feedProps [thread5]) expanded5 "Thanks")
    as (Hsome & _).
  destruct (Hsome record eq_refl) as (Hcall & _).
  destruct (postFeed_forwards Owner (feedProps [thread5]) expanded5 "Hello")
    as (Hsome' & _).
  destruct (Hsome' record eq_refl) as (_ & _ & Hinitial & _).
  rewrite Hcall, Hinitial. split; reflexivity.
Defined.

End FeedSamples.

(** * Further properties *)

(** ** The version time line: what is shown, and when it throws *)

Section VersionTimeLineViews.
Import EntityVersionTimeLine.
Context `{Host}.
Variable isMajorVersion : string -> string -> bool.

Abbreviation isMajor := (isMajor isMajorVersion).
Abbreviation isMajorRecord := (isMajorRecord isMajorVersion).
Abbreviation versionTypeList := (versionTypeList isMajorVersion).
Abbreviation getVersionList := (getVersionList isMajorVersion).
Abbreviation row := (row isMajorVersion).
Abbreviation render := (render isMajorVersion).
Abbreviation classifies := (classifies isMajorVersion).
Abbreviation renders := (renders isMajorVersion).

Lemma renders_decodes (versionType currentVersion v : string) :
  renders versionType currentVersion v -> decodes v.
Proof. intros (currV & Hdec & _). by exists currV. Qed.

(** The callback of [map] returns on a record if and only if the row of
    the record can be made. *)
Lemma rowOf_is_Some (versionType currentVersion v : string) (i : nat) :
  is_Some (currV ← JSON_parse v; row versionType currentVersion currV i)
  <-> renders versionType currentVersion v.
Proof.
  unfold EntityVersionTimeLine.renders.
  destruct (JSON_parse v) as [currV|]; cbn; split.
  - intros Hrow. exists currV. split; [done|].
    by eapply (row_is_Some isMajorVersion).
  - intros (currV' & [= <-] & Hrow). by eapply (row_is_Some isMajorVersion).
  - by intros [? [=]].
  - by intros (? & [=] & _).
Qed.

Lemma mapiM_renders (versionType currentVersion : string)
    (l : list string) (i : nat) :
  is_Some (Js.mapiM
             (fun v i =>
                currV ← JSON_parse v; row versionType currentVersion currV i)
             i l)
  <-> Forall (renders versionType currentVersion) l.
Proof.
  split.
  - revert i. induction l as [|v l IH]; intros i; [by constructor|].
    cbn [Js.mapiM].
    destruct (currV ← JSON_parse v; row versionType currentVersion currV i)
      as [r|] eqn:Hr; [|by intros [? [=]]].
    cbn [mbind option_bind].
    destruct (Js.mapiM _ (S i) l) as [rs|] eqn:Hl; [|by intros [? [=]]].
    intros _. constructor.
    + eapply rowOf_is_Some. by rewrite Hr.
    + apply (IH (S i)). by rewrite Hl.
  - intros Hall. apply mapiM_total.
    eapply Forall_impl; [exact Hall|]. intros v Hv j. by apply rowOf_is_Some.
Qed.

(** X1. When the list of versions is rendered, and when the component
    throws. [getVersionList] returns if and only if the filter returns
    and the row of every record that it keeps can be made. So it throws,
    whatever the filter, as soon as one record of the history is not a
    JSON text; it returns when the row of every record of the history can
    be made; and under a filter other than [major] and [minor], which
    keeps the history as it is, it returns in that case only. *)
Theorem getVersionList_returns_iff (props : Props) (st : State) :
  let records := default [] (versions (versionList props)) in
  (is_Some (getVersionList props st)
   <-> exists kept,
         versionTypeList (versionType st) records = Some kept
         /\ Forall (renders (versionType st) (currentVersion props)) kept)
  /\ (is_Some (getVersionList props st) -> Forall decodes records)
  /\ (Forall (renders (versionType st) (currentVersion props)) records ->
      is_Some (getVersionList props st))
  /\ (versionType st <> "major" -> versionType st <> "minor" ->
      is_Some (getVersionList props st)
      <-> Forall (renders (versionType st) (currentVersion props)) records).
Proof.
  intros records.
  assert (is_Some (getVersionList props st)
          <-> exists kept,
                versionTypeList (versionType st) records = Some kept
                /\ Forall (renders (versionType st) (currentVersion props))
                     kept) as Hiff.
  { unfold EntityVersionTimeLine.getVersionList. fold records.
    destruct (versionTypeList _ _) as [kept|] eqn:Hkept; cbn;
      [|split; [by intros [? [=]]|by intros (? & [=] & _)]].
    destruct kept as [|v kept].
    { cbn. split; [intros _; by exists []|intros _; by eexists]. }
    cbn [length Nat.eqb].
    pose proof (mapiM_renders (versionType st) (currentVersion props)
                  (v :: kept) 0) as Hmap.
    revert Hmap.
    destruct (Js.mapiM _ 0%nat (v :: kept)) as [rows|]; cbn;
      intros Hmap; split.
    - intros _. eexists. split; [done|]. apply Hmap. by eexists.
    - intros _. by eexists.
    - by intros [? [=]].
    - intros (? & [= <-] & Hrows). apply Hmap in Hrows.
      by destruct Hrows as [? [=]]. }
  split_and!; [exact Hiff| |apply getVersionList_total|].
  - intros (kept & Hkept & Hrows)%Hiff.
    destruct (versionTypeList_classifies _ _ _ _ Hkept) as [Hall| ->].
    + eapply Forall_impl; [exact Hall|]. apply classifies_decodes.
    + eapply Forall_impl; [exact Hrows|]. apply renders_decodes.
  - intros Hmajor Hminor. rewrite Hiff.
    rewrite (versionTypeList_other _ _ _ Hmajor Hminor). split.
    + by intros (? & [= <-] & Hrows).
    + intros Hrows. by eexists.
Qed.

(** X2. What [getVersionList] renders, for the records that the filter
    keeps and whose rows can be made: the placeholder that names the
    filter when it keeps none, and otherwise one row for each record that
    is kept, in their order, made from what the record decodes to and
    from its index. *)
Theorem getVersionList_view (props : Props) (st : State)
    (kept : list string) :
  versionTypeList (versionType st)
    (default [] (versions (versionList props))) = Some kept ->
  Forall (renders (versionType st) (currentVersion props)) kept ->
  match kept with
  | [] =>
      getVersionList props st
      = Some (NoVersions ("No " +:+ capitalize (versionType st)
                          +:+ " versions available"))
  | _ =>
      exists rows,
        getVersionList props st = Some (Rows rows)
        /\ length rows = length kept
        /\ forall i v, kept !! i = Some v ->
             exists currV,
               JSON_parse v = Some currV
               /\ row (versionType st) (currentVersion props) currV i
                  = rows !! i
  end.
Proof.
  intros Hkept Hrows.
  destruct kept as [|v0 kept0].
  { unfold EntityVersionTimeLine.getVersionList. by rewrite Hkept. }
  apply mapiM_renders with (i := 0%nat) in Hrows as [rows Hmap].
  exists rows.
  assert (length rows = length (v0 :: kept0)) as Hlength
    by (by eapply mapiM_length).
  split_and!; [|done|].
  - unfold EntityVersionTimeLine.getVersionList. rewrite Hkept.
    cbn [mbind option_bind length Nat.eqb]. by rewrite Hmap.
  - intros i v Hv.
    destruct (rows !! i) as [r|] eqn:Hr.
    + destruct (mapiM_lookup _ _ _ _ Hmap i r Hr) as (v' & Hv' & Hrow).
      assert (v' = v) as -> by congruence.
      destruct (JSON_parse v) as [currV|]; [|done].
      by exists currV.
    + apply lookup_ge_None in Hr. apply lookup_lt_Some in Hv. lia.
Qed.

(** X3. A history without [versions], or with none, is rendered as the
    placeholder under every filter: nothing is thrown. *)
Theorem missing_versions_placeholder (props : Props) (st : State) :
  versions (versionList props) = None
  \/ versions (versionList props) = Some [] ->
  getVersionList props st
  = Some (NoVersions ("No " +:+ capitalize (versionType st)
                      +:+ " versions available")).
Proof.
  intros Hversions.
  assert (default [] (versions (versionList props)) = []) as Hrecords
    by (by destruct Hversions as [-> | ->]).
  unfold EntityVersionTimeLine.getVersionList. rewrite Hrecords.
  unfold EntityVersionTimeLine.versionTypeList.
  by repeat case_match.
Qed.

(** X4. The rows that are rendered are never an empty list; there are as
    many as records that are kept, the row at index [i] has the key [i],
    and the connector of the start of the line is on the first row
    only. *)
Theorem rows_indexed (props : Props) (st : State)
    (rows : list (Row Num ReactNode)) :
  getVersionList props st = Some (Rows rows) ->
  rows <> []
  /\ (exists kept,
        versionTypeList (versionType st)
          (default [] (versions (versionList props))) = Some kept
        /\ length rows = length kept)
  /\ (forall i r, rows !! i = Some r ->
        key r = i /\ (startOfLine r = true <-> i = 0%nat)).
Proof.
  intros Hview.
  assert (exists kept,
            versionTypeList (versionType st)
              (default [] (versions (versionList props))) = Some kept
            /\ kept <> []
            /\ length rows = length kept) as (kept & Hkept & Hne & Hlength).
  { revert Hview. unfold EntityVersionTimeLine.getVersionList.
    destruct (versionTypeList _ _) as [kept|]; [|done]. cbn.
    destruct kept as [|v kept]; [done|]. cbn [length Nat.eqb].
    destruct (Js.mapiM _ _ _) as [rows'|] eqn:Hrows; [|done]. cbn.
    intros [= <-]. exists (v :: kept). split_and!; [done|done|].
    by eapply mapiM_length. }
  split_and!.
  - intros ->. destruct kept; [done|discriminate].
  - by exists kept.
  - intros i r Hi.
    destruct (getVersionList_rows _ _ _ _ _ _ Hview Hi)
      as (kept' & v & currV & _ & _ & _ & Hr).
    destruct (row_Some _ _ _ _ _ _ Hr)
      as (text & number & major & summary & updatedOn
          & _ & _ & _ & _ & _ & ->).
    cbn. split; [done|]. apply Nat.eqb_eq.
Qed.

End VersionTimeLineViews.

(** ** The version time line: the filters together *)

Section VersionTimeLineFilters.
Import EntityVersionTimeLine.
Context `{Host}.
Variable isMajorVersion : string -> string -> bool.

Abbreviation isMajor := (isMajor isMajorVersion).
Abbreviation isMajorRecord := (isMajorRecord isMajorVersion).
Abbreviation versionTypeList := (versionTypeList isMajorVersion).
Abbreviation getVersionList := (getVersionList isMajorVersion).
Abbreviation row := (row isMajorVersion).
Abbreviation render := (render isMajorVersion).
Abbreviation classifies := (classifies isMajorVersion).

Lemma filter_none {A : Type} (P : A -> Prop)
    `{!forall x, Decision (P x)} (l : list A) :
  (forall x, ~ P x) -> filter P l = [].
Proof.
  intros HP. induction l as [|x l IH]; [done|].
  rewrite filter_cons, IH. case_decide; [|done]. by destruct (HP x).
Qed.

(** X5. The filters [major] and [minor] split a history on whose records
    their test returns: the two lists they keep hold, together, the
    records of the history, each as often as the history does, and no
    record is in both. *)
Theorem major_minor_partition (records : list string) :
  Forall classifies records ->
  exists major minor,
    versionTypeList "major" records = Some major
    /\ versionTypeList "minor" records = Some minor
    /\ major ++ minor ≡ₚ records
    /\ (length major + length minor = length records)%nat
    /\ forall v, v ∈ major -> v ∈ minor -> False.
Proof.
  intros Hall.
  exists (filter (fun v => isMajorRecord v = Some true) records),
         (filter (fun v => isMajorRecord v = Some false) records).
  assert (filter (fun v => isMajorRecord v = Some false) records
          = filter (fun v => ~ isMajorRecord v = Some true) records) as Hminor.
  { apply filter_iff_Forall. eapply Forall_impl; [exact Hall|].
    intros v [b Hb]. rewrite Hb. destruct b; split; congruence. }
  split_and!.
  - by apply versionTypeList_major.
  - by apply versionTypeList_minor.
  - rewrite Hminor. apply filter_app_complement.
  - rewrite <- length_app, Hminor. apply Permutation_length.
    apply filter_app_complement.
  - intros v [Hmajor _]%list_elem_of_filter [Hmin _]%list_elem_of_filter.
    congruence.
Qed.

(** X6. To filter what a filter has kept changes nothing, and the filter
    [minor] keeps nothing of what [major] has kept, nor [major] of what
    [minor] has kept. *)
Theorem versionTypeList_again (versionType : string)
    (records kept : list string) :
  versionTypeList versionType records = Some kept ->
  versionTypeList versionType kept = Some kept
  /\ (versionType = "major" -> versionTypeList "minor" kept = Some [])
  /\ (versionType = "minor" -> versionTypeList "major" kept = Some []).
Proof.
  intros Hkept.
  destruct (String.eqb_spec versionType "major") as [->|Hmajor];
    [|destruct (String.eqb_spec versionType "minor") as [->|Hminor]].
  - assert (Forall classifies records) as Hrecords.
    { apply (versionTypeList_returns_iff isMajorVersion "major");
        [by left|by eexists]. }
    rewrite (versionTypeList_major _ _ Hrecords) in Hkept.
    injection Hkept as <-.
    assert (Forall classifies
              (filter (fun v => isMajorRecord v = Some true) records))
      as Hfiltered.
    { apply Forall_forall. intros v [_ Hv]%list_elem_of_filter.
      by eapply Forall_forall in Hrecords. }
    split_and!; [|intros _|done].
    + rewrite (versionTypeList_major _ _ Hfiltered). f_equal.
      rewrite list_filter_filter. apply list_filter_iff. tauto.
    + rewrite (versionTypeList_minor _ _ Hfiltered). f_equal.
      rewrite list_filter_filter.
      apply filter_none. intros v [Hf Ht]. congruence.
  - assert (Forall classifies records) as Hrecords.
    { apply (versionTypeList_returns_iff isMajorVersion "minor");
        [by right|by eexists]. }
    rewrite (versionTypeList_minor _ _ Hrecords) in Hkept.
    injection Hkept as <-.
    assert (Forall classifies
              (filter (fun v => isMajorRecord v = Some false) records))
      as Hfiltered.
    { apply Forall_forall. intros v [_ Hv]%list_elem_of_filter.
      by eapply Forall_forall in Hrecords. }
    split_and!; [|done|intros _].
    + rewrite (versionTypeList_minor _ _ Hfiltered). f_equal.
      rewrite list_filter_filter. apply list_filter_iff. tauto.
    + rewrite (versionTypeList_major _ _ Hfiltered). f_equal.
      rewrite list_filter_filter.
      apply filter_none. intros v [Hf Ht]. congruence.
  - rewrite (versionTypeList_other _ _ _ Hmajor Hminor) in Hkept.
    injection Hkept as <-.
    split_and!; [by apply versionTypeList_other|done..].
Qed.

(** X7. The version that a click on a row gives to [versionHandler] is
    the one that marks the row: once the owner makes it the current
    version, the rows of that revision are made and are selected, and
    the row of another revision is selected if and only if its version
    has the same text. *)
Theorem click_selects (versionType currentVersion : string)
    (currV : JsValue Num) (i : nat) (r : Row Num ReactNode)
    (clicked : string) :
  row versionType currentVersion currV i = Some r ->
  onClick r = versionHandler clicked ->
  (forall versionType' j,
     exists r', row versionType' clicked currV j = Some r'
                /\ selected r' = true)
  /\ (forall versionType' currV' j r',
        row versionType' clicked currV' j = Some r' ->
        selected r' = true <-> onClick r' = versionHandler clicked).
Proof.
  intros Hr Hclick.
  destruct (row_Some _ _ _ _ _ _ Hr)
    as (text & number & major & summary & updatedOn
        & Htext & _ & _ & _ & _ & ->).
  cbn in Hclick. injection Hclick as ->. split.
  - intros versionType' j.
    destruct (row_is_Some isMajorVersion versionType versionType'
                currentVersion clicked currV i j) as [r' Hr'];
      [by rewrite Hr|].
    exists r'. split; [done|].
    destruct (row_Some _ _ _ _ _ _ Hr')
      as (text' & ? & ? & ? & ? & Htext' & _ & _ & _ & _ & ->).
    cbn. rewrite Htext in Htext'. injection Htext' as <-.
    apply String.eqb_refl.
  - intros versionType' currV' j r' Hr'.
    destruct (row_Some _ _ _ _ _ _ Hr')
      as (text' & ? & ? & ? & ? & _ & _ & _ & _ & _ & ->).
    cbn. rewrite String.eqb_eq. split; [by intros ->|].
    by intros [= ->].
Qed.

(** X8. The drop-down list has no part in the rows: to open or to close
    it leaves the list of versions as it is. The drawer shows the
    drop-down list, marking the filter, exactly while [listVisible] is
    set, and after a choice it shows none and its button names the new
    filter. *)
Theorem dropDownList_frame (props : Props) (st : State) :
  getVersionList props (toggleListVisible st) = getVersionList props st
  /\ (forall view, render props st = Some view ->
        dropDownList view
        = (if listVisible st then Some (versionType st) else None)
        /\ exists view',
             render props (toggleListVisible st) = Some view'
             /\ body view' = body view
             /\ dropDownList view'
                = (if listVisible st then None else Some (versionType st)))
  /\ (forall value view,
        render props (handleVersionTypeSelection value st) = Some view ->
        dropDownList view = None
        /\ buttonLabel view
           = capitalize (versionType (handleVersionTypeSelection value st))).
Proof.
  split_and!.
  - done.
  - unfold EntityVersionTimeLine.render. intros view.
    change (EntityVersionTimeLine.getVersionList isMajorVersion props
              (toggleListVisible st))
      with (getVersionList props st).
    destruct (getVersionList props st) as [b|]; [|done]. cbn.
    intros [= <-]. cbn. split; [done|]. eexists. split; [done|]. cbn.
    by destruct (listVisible st).
  - unfold EntityVersionTimeLine.render. intros value view.
    destruct (getVersionList props _) as [b|]; [|done]. cbn.
    by intros [= <-].
Qed.

(** X9. A record that decodes to a value without [version] (to null, to a
    number, a text or an array, or to an object without that key) is
    rendered all the same: the absent version throws nothing, so the row
    is made whenever the other parts of the record are converted, and it
    is labelled [vNaN]. *)
Theorem row_without_version (versionType currentVersion : string)
    (currV : JsValue Num) (i : nat) :
  (forall props, currV = JObject props ->
     Js.lookupProperty "version" props = JUndefined) ->
  version currV = JUndefined
  /\ Js.parseFloat (version currV) = Some NaN
  /\ (is_Some (row versionType currentVersion currV i)
      <-> is_Some (lodash_toString (JUndefined : JsValue Num))
          /\ is_Some (Js.ToString (previousVersion currV))
          /\ is_Some (getSummary (currV?."changeDescription"))
          /\ is_Some (toLocaleDateString (currV?."updatedAt")))
  /\ (forall r, row versionType currentVersion currV i = Some r ->
        versionLabel r = "vNaN").
Proof.
  intros Hobject.
  assert (version currV = JUndefined) as Hversion.
  { unfold version. destruct currV; try done. cbn. by apply Hobject. }
  split_and!; [done|by rewrite Hversion| |].
  - unfold EntityVersionTimeLine.row, majorVersionChecks,
      EntityVersionTimeLine.isMajor.
    rewrite <- parseFloat_is_Some, Hversion.
    destruct (lodash_toString _) as [text|]; cbn;
      [|split; [by intros [? [=]]|by intros ([? [=]] & _)]].
    destruct (Js.parseFloat (previousVersion currV)) as [prev|]; cbn;
      [|split; [by intros [? [=]]|by intros (_ & [? [=]] & _)]].
    destruct (getSummary _) as [summary|]; cbn;
      [|split; [by intros [? [=]]|by intros (_ & _ & [? [=]] & _)]].
    destruct (toLocaleDateString _) as [updatedOn|]; cbn;
      [|split; [by intros [? [=]]|by intros (_ & _ & _ & [? [=]])]].
    split; [intros _; split_and!; by eexists|intros _; by eexists].
  - intros r Hr.
    destruct (row_Some _ _ _ _ _ _ Hr)
      as (text & number & major & summary & updatedOn
          & _ & Hnumber & _ & _ & _ & ->).
    rewrite Hversion in Hnumber. cbn in Hnumber. injection Hnumber as <-.
    done.
Qed.

End VersionTimeLineFilters.
(** ** The activity feed list: what the view shows *)

Section FeedViews.
Import ActivityFeedList.
Variable Owner : Type.
Variable getFeedListWithRelativeDays :
  list EntityThread -> list DatedThread * list string.

Abbreviation render := (render getFeedListWithRelativeDays).

(** *** Collecting from lists of nodes *)

Section Collect.
Context {A : Type} (pick : Node -> option A).

Lemma omap_concat {B C : Type} (f : B -> option C) (ls : list (list B)) :
  omap f (concat ls) = concat (List.map (omap f) ls).
Proof.
  induction ls as [|l ls IH]; [done|]. cbn. by rewrite omap_app, IH.
Qed.

Lemma collect_Div (className : option string) (children : list Node) :
  collect pick (Div className children)
  = option_list (pick (Div className children)) ++ collects pick children.
Proof.
  unfold collects, collect. cbn [nodes]. cbn [omap list_omap].
  rewrite omap_concat, List.map_map.
  by destruct (pick (Div className children)).
Qed.

Lemma collects_app (l1 l2 : list Node) :
  collects pick (l1 ++ l2) = collects pick l1 ++ collects pick l2.
Proof. unfold collects. by rewrite List.map_app, List.concat_app. Qed.

Lemma collects_cons (n : Node) (l : list Node) :
  collects pick (n :: l) = collect pick n ++ collects pick l.
Proof. done. Qed.

Lemma collects_concat (ls : list (list Node)) :
  collects pick (concat ls) = concat (List.map (collects pick) ls).
Proof.
  induction ls as [|l ls IH]; [done|].
  cbn [concat List.map]. by rewrite collects_app, IH.
Qed.

Lemma collect_leaf (n : Node) :
  (forall className children, n <> Div className children) ->
  collect pick n = option_list (pick n).
Proof.
  intros Hn. unfold collect.
  destruct n as [| | | | | | |c cs];
    cbn [nodes omap list_omap]; try by destruct (pick _).
  by destruct (Hn c cs).
Qed.

End Collect.

(** The nodes of the region of the replies, apart from the editor, and
    the cards of the replies, are of no kind that is collected below. *)
Lemma collects_replyCards {A : Type} (pick : Node -> option A)
    (feeds : list Post) :
  (forall feed, pick (replyCard feed) = None) ->
  collects pick (List.map replyCard feeds) = [].
Proof.
  intros Hpick. induction feeds as [|feed feeds IH]; [done|].
  cbn [List.map]. rewrite collects_cons, IH, collect_leaf by done.
  by rewrite Hpick.
Qed.

Lemma collects_replyHeader {A : Type} (pick : Node -> option A)
    (replies : Z) :
  (forall n, pick (ViewAllReplies n) = None) ->
  (forall n noun, pick (ReplyCount n noun) = None) ->
  collects pick (replyHeader replies) = [].
Proof.
  intros Hlink Hcount. unfold replyHeader.
  repeat case_match; try done.
  all: rewrite collects_cons, collect_leaf by done.
  all: by rewrite ?Hlink, ?Hcount.
Qed.

(** What is collected from the card of a thread and from its region. *)
Lemma collects_threadNodes {A : Type} (pick : Node -> option A)
    (isEntityFeed : bool) (selctedThreadId : string) (f : DatedThread) :
  (forall feed, pick (replyCard feed) = None) ->
  (forall n, pick (ViewAllReplies n) = None) ->
  (forall n noun, pick (ReplyCount n noun) = None) ->
  (forall className children, pick (Div className children) = None) ->
  exists card,
    threadNodes isEntityFeed selctedThreadId f
    = ActivityFeedCard card
      :: (if String.eqb selctedThreadId (id (thread f))
          then [expandedThread (thread f)] else [])
    /\ threadId card = Some (id (thread f))
    /\ collects pick (threadNodes isEntityFeed selctedThreadId f)
       = option_list (pick (ActivityFeedCard card))
         ++ (if String.eqb selctedThreadId (id (thread f))
             then option_list (pick ActivityFeedEditor) else []).
Proof.
  intros Hreply Hlink Hcount Hdiv. unfold threadNodes. eexists.
  split; [done|]. split; [done|].
  rewrite collects_cons, collect_leaf by done. f_equal.
  destruct (String.eqb _ _); [|done].
  rewrite collects_cons. unfold expandedThread, LatestReplyFeedList.
  rewrite collect_Div, Hdiv, collects_app, collects_replyHeader by done.
  rewrite !collects_cons, collect_Div, Hdiv, collects_replyCards by done.
  rewrite collect_leaf by done. cbn. by rewrite !app_nil_r.
Qed.

Lemma collects_FeedListBody {A : Type} (pick : Node -> option A)
    (updatedFeedList : list DatedThread) (d : string)
    (isEntityFeed : bool) (selctedThreadId : string) :
  collects pick (FeedListBody updatedFeedList d isEntityFeed selctedThreadId)
  = concat
      (List.map
         (fun f => collects pick (threadNodes isEntityFeed selctedThreadId f))
         (threadsOf updatedFeedList d)).
Proof.
  unfold FeedListBody, threadsOf. by rewrite collects_concat, List.map_map.
Qed.

(** What is collected from the view of a feed list that is not empty: from
    each day, in the order of the days, and then from the panel. *)
Lemma collect_render {A : Type} (pick : Node -> option A)
    (props : Props Owner) (st : State)
    (updatedFeedList : list DatedThread) (relativeDays : list string) :
  getFeedListWithRelativeDays (feedList props)
  = (updatedFeedList, relativeDays) ->
  feedList props <> [] ->
  (forall className children, pick (Div className children) = None) ->
  collect pick (render props st)
  = concat
      (List.map
         (fun d =>
            option_list (pick (FeedListSeparatorLabel d))
            ++ collects pick
                 (FeedListBody updatedFeedList d (isEntityFeed props)
                    (selctedThreadId st)))
         relativeDays)
    ++ match selectedThread st with
       | Some thread =>
           if withSidePanel props && isPanelOpen st
           then option_list (pick (ActivityFeedPanel thread (isPanelOpen st)))
           else []
       | None => []
       end.
Proof.
  intros Hdays Hfeed Hdiv. unfold ActivityFeedList.render. rewrite Hdays.
  destruct (feedList props) as [|t l] eqn:Hlist; [done|]. cbn [length Nat.ltb Nat.leb].
  rewrite collect_Div, Hdiv, collects_app, collects_concat, List.map_map.
  change (option_list None) with (@nil A). rewrite app_nil_l. f_equal.
  - f_equal. apply List.map_ext. intros d. rewrite collects_cons. f_equal.
    unfold FeedListSeparator. rewrite collect_Div, Hdiv.
    change (option_list None) with (@nil A). rewrite app_nil_l.
    rewrite collects_cons, collect_leaf by done. apply app_nil_r.
  - destruct (selectedThread st) as [thread|]; [|done].
    destruct (withSidePanel props && isPanelOpen st); [|done].
    rewrite collects_cons, collect_leaf by done. apply app_nil_r.
Qed.

(** X10. The view of a feed list that is not empty has one separator for
    each label that [getFeedListWithRelativeDays] gives, in the order in
    which it gives them, also for a label that no thread has. *)
Theorem separators_are_days (props : Props Owner) (st : State)
    (updatedFeedList : list DatedThread) (relativeDays : list string) :
  getFeedListWithRelativeDays (feedList props)
  = (updatedFeedList, relativeDays) ->
  feedList props <> [] ->
  separatorLabels (render props st) = relativeDays.
Proof.
  intros Hdays Hfeed. unfold separatorLabels.
  rewrite (collect_render _ _ _ _ _ Hdays Hfeed) by done.
  assert (forall d,
            collects
              (fun n => match n with
                        | FeedListSeparatorLabel d => Some d
                        | _ => None
                        end)
              (FeedListBody updatedFeedList d (isEntityFeed props)
                 (selctedThreadId st)) = []) as Hbody.
  { intros d. rewrite collects_FeedListBody.
    induction (threadsOf updatedFeedList d) as [|f l IH]; [done|].
    cbn [List.map concat]. rewrite IH.
    destruct (collects_threadNodes
                (fun n => match n with
                          | FeedListSeparatorLabel d => Some d
                          | _ => None
                          end)
                (isEntityFeed props) (selctedThreadId st) f)
      as (card & _ & _ & ->); try done.
    by destruct (String.eqb _ _). }
  replace (match selectedThread st with
           | Some thread =>
               if withSidePanel props && isPanelOpen st then _ else []
           | None => []
           end) with (@nil string)
    by (by destruct (selectedThread st), (withSidePanel props && isPanelOpen st)).
  rewrite app_nil_r. clear Hdays.
  induction relativeDays as [|d days IH]; [done|].
  cbn [List.map concat]. by rewrite IH, Hbody.
Qed.

Lemma threadCards_render (props : Props Owner) (st : State)
    (updatedFeedList : list DatedThread) (relativeDays : list string) :
  getFeedListWithRelativeDays (feedList props)
  = (updatedFeedList, relativeDays) ->
  feedList props <> [] ->
  threadCards (render props st)
  = concat
      (List.map
         (fun d => List.map (fun f => id (thread f))
                     (threadsOf updatedFeedList d))
         relativeDays).
Proof.
  intros Hdays Hfeed. unfold threadCards.
  rewrite (collect_render _ _ _ _ _ Hdays Hfeed) by done.
  replace (match selectedThread st with
           | Some thread =>
               if withSidePanel props && isPanelOpen st then _ else []
           | None => []
           end) with (@nil string)
    by (by destruct (selectedThread st), (withSidePanel props && isPanelOpen st)).
  rewrite app_nil_r. f_equal. apply List.map_ext. intros d.
  change (option_list None) with (@nil string). rewrite app_nil_l.
  rewrite collects_FeedListBody.
  induction (threadsOf updatedFeedList d) as [|f l IH]; [done|].
  cbn [List.map concat]. rewrite IH.
  destruct (collects_threadNodes
              (fun n => match n with
                        | ActivityFeedCard p => threadId p
                        | _ => None
                        end)
              (isEntityFeed props) (selctedThreadId st) f)
    as (card & _ & Hid & ->); try done.
  rewrite Hid. by destruct (String.eqb _ _).
Qed.

Lemma panels_render (props : Props Owner) (st : State) :
  panels (render props st)
  = match selectedThread st with
    | Some thread =>
        if (0 <? length (feedList props))%nat
           && withSidePanel props && isPanelOpen st
        then [(thread, true)]
        else []
    | None => []
    end.
Proof.
  destruct (getFeedListWithRelativeDays (feedList props))
    as [updatedFeedList relativeDays] eqn:Hdays.
  destruct (feedList props) as [|t l] eqn:Hfeed.
  - unfold panels, ActivityFeedList.render. rewrite Hfeed, Hdays.
    by destruct (selectedThread st).
  - assert (feedList props <> []) as Hne by (by rewrite Hfeed).
    unfold panels. rewrite <- Hfeed in Hdays.
    rewrite (collect_render _ _ _ _ _ Hdays Hne) by done.
    assert (forall d,
              collects
                (fun n => match n with
                          | ActivityFeedPanel t open => Some (t, open)
                          | _ => None
                          end)
                (FeedListBody updatedFeedList d (isEntityFeed props)
                   (selctedThreadId st)) = []) as Hbody.
    { intros d. rewrite collects_FeedListBody.
      induction (threadsOf updatedFeedList d) as [|f fs IH]; [done|].
      cbn [List.map concat]. rewrite IH.
      destruct (collects_threadNodes
                  (fun n => match n with
                            | ActivityFeedPanel t open => Some (t, open)
                            | _ => None
                            end)
                  (isEntityFeed props) (selctedThreadId st) f)
        as (card & _ & _ & ->); try done.
      by destruct (String.eqb _ _). }
    match goal with
    | |- concat ?days ++ _ = _ => assert (days_empty : concat days = [])
    end.
    { clear Hdays. induction relativeDays as [|d days IH]; [done|].
      cbn [List.map concat]. by rewrite IH, Hbody. }
    rewrite days_empty.
    cbn [length Nat.ltb Nat.leb app andb].
    destruct (selectedThread st) as [thread|]; [|done].
    by destruct (withSidePanel props), (isPanelOpen st).
Qed.

(** X11. The cards of the threads stand day by day, in the order of the
    days: under each label, the threads that have that label, in the order
    of the feed list. A reply has a card but is no thread. *)
Theorem threadCards_by_day (props : Props Owner) (st : State)
    (updatedFeedList : list DatedThread) (relativeDays : list string) :
  getFeedListWithRelativeDays (feedList props)
  = (updatedFeedList, relativeDays) ->
  feedList props <> [] ->
  threadCards (render props st)
  = concat
      (List.map
         (fun d => List.map (fun f => id (thread f))
                     (threadsOf updatedFeedList d))
         relativeDays).
Proof. apply threadCards_render. Qed.

(** *** The days split the threads *)

Lemma filter_negb_Permutation {A : Type} (p : A -> bool) (l : list A) :
  List.filter p l ++ List.filter (fun x => negb (p x)) l ≡ₚ l.
Proof.
  induction l as [|x l IH]; [done|]. cbn [List.filter].
  destruct (p x); cbn [negb].
  - cbn. by rewrite IH.
  - by rewrite <- Permutation_middle, IH.
Qed.

Lemma threadsOf_other (l : list DatedThread) (d d' : string) :
  d' <> d ->
  threadsOf (List.filter (fun f => negb (String.eqb (relativeDay f) d)) l) d'
  = threadsOf l d'.
Proof.
  intros Hd. unfold threadsOf.
  induction l as [|f l IH]; [done|]. cbn [List.filter].
  destruct (String.eqb_spec (relativeDay f) d) as [Hf|Hf]; cbn [negb].
  - rewrite IH. destruct (String.eqb_spec (relativeDay f) d'); [congruence|done].
  - cbn [List.filter]. by rewrite IH.
Qed.

Lemma threadsOf_others (l : list DatedThread) (d : string)
    (days : list string) :
  d ∉ days ->
  List.map (threadsOf l) days
  = List.map
      (threadsOf
         (List.filter (fun f => negb (String.eqb (relativeDay f) d)) l))
      days.
Proof.
  induction days as [|d' days IH]; [done|].
  intros [Hd Hdays]%not_elem_of_cons. cbn [List.map].
  by rewrite IH, threadsOf_other.
Qed.

(** With labels that are distinct, no thread is under two days. *)
Lemma days_submseteq (days : list string) :
  NoDup days ->
  forall l : list DatedThread, concat (List.map (threadsOf l) days) ⊆+ l.
Proof.
  induction 1 as [|d days Hd _ IH]; intros l; [apply submseteq_nil_l|].
  cbn [List.map concat]. rewrite (threadsOf_others l d days Hd).
  transitivity
    (threadsOf l d
     ++ List.filter (fun f => negb (String.eqb (relativeDay f) d)) l).
  - apply submseteq_skips_l, IH.
  - apply Permutation_submseteq, filter_negb_Permutation.
Qed.

Lemma NoDup_submseteq_map {A : Type} (g : A -> string) (l k : list A) :
  NoDup (List.map g k) -> l ⊆+ k -> NoDup (List.map g l).
Proof.
  intros Hk Hl. apply submseteq_Permutation in Hl as [k' Hl].
  apply (fmap_Permutation g) in Hl. change (g <$> k) with (List.map g k) in Hl.
  rewrite Hl, fmap_app in Hk. by apply NoDup_app in Hk as [Hk _].
Qed.

(** With labels that are distinct and that are those of the threads,
    every thread is under one day. *)
Lemma days_Permutation (days : list string) :
  NoDup days ->
  forall l : list DatedThread,
    (forall f, f ∈ l -> relativeDay f ∈ days) ->
    concat (List.map (threadsOf l) days) ≡ₚ l.
Proof.
  induction 1 as [|d days Hd _ IH]; intros l Hl.
  - destruct l as [|f l]; [done|].
    exfalso. apply (elem_of_nil (relativeDay f)), Hl. by left.
  - cbn [List.map concat]. rewrite (threadsOf_others l d days Hd).
    transitivity
      (threadsOf l d
       ++ List.filter (fun f => negb (String.eqb (relativeDay f) d)) l);
      [|apply filter_negb_Permutation].
    apply Permutation_app_head, IH. intros f Hf.
    apply list_elem_of_In, List.filter_In in Hf as [Hf Hday].
    apply list_elem_of_In, Hl, elem_of_cons in Hf as [Hf|Hf]; [|done].
    rewrite Hf, String.eqb_refl in Hday. done.
Qed.

(** X12. When the labels that [getFeedListWithRelativeDays] gives are
    distinct and are those of the threads, every thread of the dated list
    has one card: none is left out and none is shown twice. *)
Theorem threadCards_once (props : Props Owner) (st : State)
    (updatedFeedList : list DatedThread) (relativeDays : list string) :
  getFeedListWithRelativeDays (feedList props)
  = (updatedFeedList, relativeDays) ->
  feedList props <> [] ->
  NoDup relativeDays ->
  (forall f, f ∈ updatedFeedList -> relativeDay f ∈ relativeDays) ->
  threadCards (render props st)
  ≡ₚ List.map (fun f => id (thread f)) updatedFeedList.
Proof.
  intros Hdays Hfeed Hdistinct Hlabels.
  rewrite (threadCards_render _ _ _ _ Hdays Hfeed).
  rewrite <- List.map_map, <- List.concat_map.
  apply (fmap_Permutation (fun f => id (thread f))).
  by apply days_Permutation.
Qed.

(** X13. The panel is in the view exactly when the feed list is not
    empty, the side panel is enabled, a thread is selected and the panel
    is open; it is then the only one, it shows the selected thread and it
    is open. *)
Theorem panels_shown (props : Props Owner) (st : State) :
  panels (render props st)
  = match selectedThread st with
    | Some thread =>
        if (0 <? length (feedList props))%nat
           && withSidePanel props && isPanelOpen st
        then [(thread, true)]
        else []
    | None => []
    end.
Proof. apply panels_render. Qed.

(** *** The editors *)

(** There is one editor for each thread that is shown and has the
    selected id. *)
Lemma editors_render (props : Props Owner) (st : State)
    (updatedFeedList : list DatedThread) (relativeDays : list string) :
  getFeedListWithRelativeDays (feedList props)
  = (updatedFeedList, relativeDays) ->
  feedList props <> [] ->
  editors (render props st)
  = length
      (List.filter
         (fun f => String.eqb (selctedThreadId st) (id (thread f)))
         (concat (List.map (threadsOf updatedFeedList) relativeDays))).
Proof.
  intros Hdays Hfeed. unfold editors.
  rewrite (collect_render _ _ _ _ _ Hdays Hfeed) by done.
  replace (match selectedThread st with
           | Some thread =>
               if withSidePanel props && isPanelOpen st then _ else []
           | None => []
           end) with (@nil unit)
    by (by destruct (selectedThread st), (withSidePanel props && isPanelOpen st)).
  rewrite app_nil_r. clear Hdays.
  induction relativeDays as [|d days IH]; [done|].
  cbn [List.map concat]. rewrite List.filter_app, !length_app, IH.
  f_equal. change (length (option_list None)) with 0%nat. rewrite Nat.add_0_l.
  rewrite collects_FeedListBody.
  induction (threadsOf updatedFeedList d) as [|f l IHl]; [done|].
  cbn [List.map concat List.filter]. rewrite length_app, IHl.
  destruct (collects_threadNodes
              (fun n => match n with
                        | ActivityFeedEditor => Some tt
                        | _ => None
                        end)
              (isEntityFeed props) (selctedThreadId st) f)
    as (card & _ & _ & ->); try done.
  by destruct (String.eqb _ _).
Qed.

Lemma filter_none_In {A : Type} (p : A -> bool) (l : list A) :
  (forall x, In x l -> p x = false) -> List.filter p l = [].
Proof.
  induction l as [|x l IH]; [done|]. intros Hp. cbn [List.filter].
  rewrite (Hp x) by (by left). apply IH. intros y Hy. apply Hp. by right.
Qed.

Lemma filter_unique {A : Type} (g : A -> string) (s : string) (l : list A) :
  NoDup (List.map g l) ->
  (length (List.filter (fun x => String.eqb s (g x)) l) <= 1)%nat.
Proof.
  induction l as [|x l IH]; [by cbn; lia|].
  cbn [List.map List.filter]. intros [Hx Hl]%NoDup_cons.
  destruct (String.eqb_spec s (g x)) as [->|Hs]; [|by apply IH].
  rewrite filter_none_In; [done|]. intros y Hy.
  apply String.eqb_neq. intros Hg. apply Hx. rewrite Hg.
  apply list_elem_of_In, List.in_map, Hy.
Qed.

(** X14. No region of replies is open when no thread that is shown has
    the selected id, as at the start; one is open when a thread under one
    of the days has it; and when the labels are distinct and the ids of
    the threads are distinct, at most one is open: one thread is expanded
    at a time. *)
Theorem editors_selected (props : Props Owner) (st : State)
    (updatedFeedList : list DatedThread) (relativeDays : list string) :
  getFeedListWithRelativeDays (feedList props)
  = (updatedFeedList, relativeDays) ->
  feedList props <> [] ->
  ((forall f, f ∈ updatedFeedList -> id (thread f) <> selctedThreadId st) ->
   editors (render props st) = 0%nat)
  /\ (forall f, f ∈ updatedFeedList -> relativeDay f ∈ relativeDays ->
        id (thread f) = selctedThreadId st ->
        (1 <= editors (render props st))%nat)
  /\ (NoDup relativeDays ->
      NoDup (List.map (fun f => id (thread f)) updatedFeedList) ->
      (editors (render props st) <= 1)%nat).
Proof.
  intros Hdays Hfeed. rewrite (editors_render _ _ _ _ Hdays Hfeed).
  split_and!.
  - intros Hnone. rewrite filter_none_In; [done|]. intros f Hf.
    apply String.eqb_neq. intros Hid. apply (Hnone f); [|done].
    apply List.in_concat in Hf as (l & Hl & Hf).
    apply List.in_map_iff in Hl as (d & <- & _).
    apply List.filter_In in Hf as [Hf _]. by apply list_elem_of_In.
  - intros f Hf Hday Hid.
    assert (In f (List.filter
                    (fun f => String.eqb (selctedThreadId st) (id (thread f)))
                    (concat (List.map (threadsOf updatedFeedList)
                               relativeDays)))) as Hin.
    { apply List.filter_In. split; [|by rewrite Hid, String.eqb_refl].
      apply List.in_concat. exists (threadsOf updatedFeedList (relativeDay f)).
      split; [by apply List.in_map, list_elem_of_In|].
      apply List.filter_In. split; [by apply list_elem_of_In|].
      apply String.eqb_refl. }
    destruct (List.filter _ _); [done|]. cbn. lia.
  - intros Hdistinct Hids. apply filter_unique.
    eapply NoDup_submseteq_map; [exact Hids|]. by apply days_submseteq.
Qed.

End FeedViews.

(** ** The activity feed list: what the events lead to *)

Section FeedEvents.
Import ActivityFeedList.
Variable Owner : Type.
Variable getFeedListWithRelativeDays :
  list EntityThread -> list DatedThread * list string.

Abbreviation render := (render getFeedListWithRelativeDays).

(** X15. A click on [View all (N) replies], while the thread that is
    expanded is in the feed list and the side panel is enabled, puts that
    thread in the panel: the view has one panel, open, with the thread of
    the feed list that has the selected id. *)
Theorem viewAll_shows_panel (props : Props Owner) (st : State)
    (t : EntityThread) :
  t ∈ feedList props ->
  id t = selctedThreadId st ->
  withSidePanel props = true ->
  exists t',
    findThread (feedList props) (selctedThreadId st) = Some t'
    /\ id t' = selctedThreadId st
    /\ viewAllClick props st
       = {| selectedThread := Some t';
            selctedThreadId := selctedThreadId st;
            isPanelOpen := true |}
    /\ panels (render props (viewAllClick props st)) = [(t', true)].
Proof.
  intros Ht Hid Hside.
  destruct (findThread_elem_of _ _ _ Ht Hid) as (t' & Hfind & _ & Hid').
  exists t'. unfold viewAllClick, onThreadSelect. rewrite Hfind.
  split_and!; [done..|].
  rewrite panels_render. cbn. rewrite Hside.
  destruct (feedList props); [by apply elem_of_nil in Ht|done].
Qed.

(** X16. Escape after that click takes the panel away again, and gives
    back the state before the click when no thread was in the panel
    then. *)
Theorem escape_after_viewAll (c : Instance Owner) :
  keydownListener c = true ->
  let clicked :=
    {| props := props c;
       state := viewAllClick (props c) (state c);
       keydownListener := keydownListener c |} in
  state (keydown "Escape" clicked) = onCancel (state c)
  /\ panels (render (props c) (state (keydown "Escape" clicked))) = []
  /\ (selectedThread (state c) = None -> isPanelOpen (state c) = false ->
      state (keydown "Escape" clicked) = state c).
Proof.
  intros Hlistener clicked. subst clicked.
  unfold keydown, escapeKeyHandler. cbn. rewrite Hlistener.
  assert (onCancel (viewAllClick (props c) (state c)) = onCancel (state c))
    as ->.
  { unfold viewAllClick, onThreadSelect.
    by destruct (findThread _ _). }
  split_and!; [done|by rewrite panels_render|].
  destruct (state c) as [selected selectedId panel]. cbn. by intros -> ->.
Qed.

(** X17. When the owner passes a feed list that has no thread with the
    selected id, the state stays as it is: a thread that is in the panel
    stays in the panel, as the copy that the component holds, although
    the feed list no longer has it. *)
Theorem feedListChange_keeps (c : Instance Owner)
    (feedList' : list EntityThread) :
  (forall t, t ∈ feedList' -> id t <> selctedThreadId (state c)) ->
  let c' := feedListChange feedList' c in
  state c' = state c
  /\ feedList (props c') = feedList'
  /\ withSidePanel (props c') = withSidePanel (props c)
  /\ (forall t, selectedThread (state c) = Some t ->
        feedList' <> [] ->
        withSidePanel (props c) = true ->
        isPanelOpen (state c) = true ->
        panels (render (props c') (state c')) = [(t, true)]).
Proof.
  intros Hnone c'. subst c'.
  assert (state (feedListChange feedList' c) = state c) as Hstate.
  { unfold feedListChange, onThreadSelect. cbn.
    by rewrite (proj2 (findThread_None feedList' _)); [|apply Forall_forall]. }
  split_and!; [done..|].
  intros t Hselected Hfeed Hside Hopen.
  rewrite panels_render, Hstate, Hselected, Hopen. cbn. rewrite Hside.
  by destruct feedList'.
Qed.

(** X18. After the mount of a feed list whose threads have ids that are
    not empty, the state is the initial one and the listener is attached;
    the view has no panel, and no region of replies is open. *)
Theorem mount_view (props : Props Owner)
    (updatedFeedList : list DatedThread) (relativeDays : list string) :
  getFeedListWithRelativeDays (feedList props)
  = (updatedFeedList, relativeDays) ->
  feedList props <> [] ->
  (forall t, t ∈ feedList props -> id t <> "") ->
  (forall f, f ∈ updatedFeedList -> id (thread f) <> "") ->
  state (mount props) = initialState
  /\ keydownListener (mount props) = true
  /\ panels (render props (state (mount props))) = []
  /\ editors (render props (state (mount props))) = 0%nat.
Proof.
  intros Hdays Hfeed Hids Hupdated.
  assert (state (mount props) = initialState) as Hstate.
  { unfold mount, onThreadSelect. cbn.
    by rewrite (proj2 (findThread_None (feedList props) ""));
      [|apply Forall_forall]. }
  rewrite Hstate. split_and!; [done|done|by rewrite panels_render|].
  rewrite (editors_render _ _ _ _ _ _ Hdays Hfeed).
  rewrite filter_none_In; [done|]. intros f Hf. apply String.eqb_neq.
  intros Hid. apply (Hupdated f); [|done].
  apply List.in_concat in Hf as (l & Hl & Hf).
  apply List.in_map_iff in Hl as (d & <- & _).
  apply List.filter_In in Hf as [Hf _]. by apply list_elem_of_In.
Qed.

Lemma keydown_step (key : string) (c : Instance Owner) :
  props (keydown key c) = props c
  /\ keydownListener (keydown key c) = keydownListener c
  /\ selctedThreadId (state (keydown key c)) = selctedThreadId (state c)
  /\ (state (keydown key c) = state c
      \/ state (keydown key c) = onCancel (state c))
  /\ (keydownListener c = false -> state (keydown key c) = state c)
  /\ (keydownListener c = true -> key = "Escape" ->
      state (keydown key c) = onCancel (state c)).
Proof.
  unfold keydown, escapeKeyHandler. cbn.
  destruct (keydownListener c); [|by split_and!; try done; left].
  destruct (String.eqb_spec key "Escape") as [->|Hkey].
  - split_and!; try done. by right.
  - split_and!; try done. by left.
Qed.

Lemma onCancel_onCancel (st : State) : onCancel (onCancel st) = onCancel st.
Proof. done. Qed.

(** X19. Whatever keys are pressed, one after the other, the props and
    the id of the thread that is expanded stay as they are, and so does
    the listener; the state is the one before or that one closed by
    [onCancel], and it is the latter when the component is mounted and
    Escape is among the keys. On a component that is not mounted no key
    changes the state. *)
Theorem keydown_sequence (keys : list string) (c : Instance Owner) :
  let c' := foldl (fun c key => keydown key c) c keys in
  props c' = props c
  /\ keydownListener c' = keydownListener c
  /\ selctedThreadId (state c') = selctedThreadId (state c)
  /\ (state c' = state c \/ state c' = onCancel (state c))
  /\ (keydownListener c = false -> state c' = state c)
  /\ (keydownListener c = true -> "Escape" ∈ keys ->
      state c' = onCancel (state c)).
Proof.
  revert c. induction keys as [|key keys IH]; intros c; cbn [foldl].
  - split_and!; try done; [by left|]. by intros _ ?%elem_of_nil.
  - destruct (IH (keydown key c))
      as (Hprops & Hlistener & Hid & Hstate & Hoff & Hon).
    destruct (keydown_step key c)
      as (Hprops1 & Hlistener1 & Hid1 & Hstate1 & Hoff1 & Hon1).
    cbn zeta in *.
    rewrite Hprops, Hlistener, Hid, Hprops1, Hlistener1, Hid1.
    rewrite Hlistener1 in Hoff, Hon.
    split_and!; try done.
    + destruct Hstate as [-> | ->], Hstate1 as [-> | ->];
        rewrite ?onCancel_onCancel; auto.
    + intros Hc. by rewrite Hoff, Hoff1.
    + intros Hc [<-|Hin]%elem_of_cons.
      * rewrite (Hon1 Hc eq_refl) in Hstate.
        rewrite onCancel_onCancel in Hstate. by destruct Hstate.
      * rewrite (Hon Hc Hin).
        destruct Hstate1 as [-> | ->]; by rewrite ?onCancel_onCancel.
Qed.

End FeedEvents.

(** ** The further properties on the samples *)

Section MoreTimeLineSamples.
Import EntityVersionTimeLine Samples.

Lemma history_renders :
  Forall (renders EntityVersionUtils.isMajorVersion "all" "1.1") history.
Proof.
  unfold history.
  apply List.Forall_cons;
    [apply (rowOf_is_Some EntityVersionUtils.isMajorVersion _ _ _ 0);
     vm_compute; eexists; reflexivity|].
  apply List.Forall_cons;
    [apply (rowOf_is_Some EntityVersionUtils.isMajorVersion _ _ _ 0);
     vm_compute; eexists; reflexivity|].
  apply List.Forall_cons;
    [apply (rowOf_is_Some EntityVersionUtils.isMajorVersion _ _ _ 0);
     vm_compute; eexists; reflexivity|].
  apply List.Forall_nil.
Defined.

Lemma getVersionList_returns_iff_witness :
  is_Some (getVersionList EntityVersionUtils.isMajorVersion timelineProps
             (filtering "all")).
Proof.
  exact (proj1 (proj2 (proj2 (getVersionList_returns_iff (H := referenceHost)
                                EntityVersionUtils.isMajorVersion
                                timelineProps (filtering "all"))))
           history_renders).
Defined.

(** One record whose version cannot be converted: the list is not
    rendered, although every record is a JSON text. *)
Example getVersionList_throws_TypeError :
  Forall decodes [r10; rObject]
  /\ ~ renders EntityVersionUtils.isMajorVersion "all" "1" rObject
  /\ getVersionList EntityVersionUtils.isMajorVersion
       {| versionList := {| versions := Some [r10; rObject] |};
          currentVersion := "1"; show := true |} (filtering "all")
     = None.
Proof.
  split_and!.
  - apply List.Forall_cons; [vm_compute; eexists; reflexivity|].
    apply List.Forall_cons; [vm_compute; eexists; reflexivity|].
    apply List.Forall_nil.
  - intros (currV & Hdec & Hrow).
    assert (JSON_parse rObject
            = Some (JObject [("version", JObject [("toString", number "1")])]))
      as Hparse by (vm_compute; reflexivity).
    rewrite Hparse in Hdec. injection Hdec as <-.
    revert Hrow. vm_compute. by intros [? [=]].
  - vm_compute. reflexivity.
Qed.

Lemma getVersionList_view_witness :
  exists rows,
    getVersionList EntityVersionUtils.isMajorVersion timelineProps
      (filtering "major") = Some (Rows rows)
    /\ length rows = 1%nat.
Proof.
  assert (versionTypeList EntityVersionUtils.isMajorVersion "major" history
          = Some [r20]) as Hkept by (vm_compute; reflexivity).
  assert (Forall (renders EntityVersionUtils.isMajorVersion "major" "1.1")
            [r20]) as Hrows.
  { apply List.Forall_cons;
      [apply (rowOf_is_Some EntityVersionUtils.isMajorVersion _ _ _ 0);
     vm_compute; eexists; reflexivity|].
    apply List.Forall_nil. }
  destruct (getVersionList_view (H := referenceHost)
              EntityVersionUtils.isMajorVersion timelineProps
              (filtering "major") [r20] Hkept Hrows)
    as (rows & Hview & Hlength & _).
  exists rows. exact (conj Hview Hlength).
Defined.

Lemma missing_versions_placeholder_witness :
  getVersionList EntityVersionUtils.isMajorVersion noVersions
    (filtering "minor")
  = Some (NoVersions "No Minor versions available").
Proof.
  exact (missing_versions_placeholder (H := referenceHost)
           EntityVersionUtils.isMajorVersion noVersions (filtering "minor")
           (or_introl eq_refl)).
Defined.

Lemma rows_indexed_witness :
  allRows <> []
  /\ (exists kept,
        versionTypeList EntityVersionUtils.isMajorVersion "all" history
        = Some kept
        /\ length allRows = length kept)
  /\ key row20 = 2%nat.
Proof.
  assert (getVersionList EntityVersionUtils.isMajorVersion timelineProps
            (filtering "all") = Some (Rows allRows)) as Hview
    by (vm_compute; reflexivity).
  assert (allRows !! 2%nat = Some row20) as Hi
    by (vm_compute; reflexivity).
  destruct (rows_indexed (H := referenceHost)
              EntityVersionUtils.isMajorVersion timelineProps
              (filtering "all") allRows Hview) as (Hrows & Hkept & Hkeys).
  exact (conj Hrows (conj Hkept (proj1 (Hkeys 2%nat row20 Hi)))).
Defined.

Lemma major_minor_partition_witness :
  exists major minor,
    versionTypeList EntityVersionUtils.isMajorVersion "major" history
    = Some major
    /\ versionTypeList EntityVersionUtils.isMajorVersion "minor" history
       = Some minor
    /\ (length major + length minor = 3)%nat.
Proof.
  destruct (major_minor_partition (H := referenceHost)
              EntityVersionUtils.isMajorVersion history history_classifies)
    as (major & minor & Hmajor & Hminor & _ & Hlength & _).
  exists major, minor. exact (conj Hmajor (conj Hminor Hlength)).
Defined.

Lemma versionTypeList_again_witness :
  versionTypeList EntityVersionUtils.isMajorVersion "minor" [r10; r11]
  = Some [r10; r11]
  /\ versionTypeList EntityVersionUtils.isMajorVersion "major" [r10; r11]
     = Some [].
Proof.
  assert (versionTypeList EntityVersionUtils.isMajorVersion "minor" history
          = Some [r10; r11]) as Hkept by (vm_compute; reflexivity).
  destruct (versionTypeList_again (H := referenceHost)
              EntityVersionUtils.isMajorVersion "minor" history [r10; r11]
              Hkept) as (Hagain & _ & Hnone).
  exact (conj Hagain (Hnone eq_refl)).
Defined.

Lemma click_selects_witness :
  exists r',
    row EntityVersionUtils.isMajorVersion "major" "1" decoded10 4 = Some r'
    /\ selected r' = true.
Proof.
  assert (exists r,
            row EntityVersionUtils.isMajorVersion "all" "1.1" decoded10 0
            = Some r
            /\ onClick r = versionHandler "1") as (r & Hr & Hclick)
    by (vm_compute; eexists; split; reflexivity).
  exact (proj1 (click_selects (H := referenceHost)
                  EntityVersionUtils.isMajorVersion "all" "1.1" decoded10 0
                  r "1" Hr Hclick) "major" 4%nat).
Defined.

Lemma dropDownList_frame_witness :
  dropDownList drawer = Some "all"
  /\ exists view',
       render EntityVersionUtils.isMajorVersion timelineProps
         (toggleListVisible listOpen) = Some view'
       /\ body view' = body drawer
       /\ dropDownList view' = None.
Proof.
  assert (render EntityVersionUtils.isMajorVersion timelineProps listOpen
          = Some drawer) as Hview by (vm_compute; reflexivity).
  destruct (dropDownList_frame (H := referenceHost)
              EntityVersionUtils.isMajorVersion timelineProps listOpen)
    as (_ & Hshown & _).
  exact (Hshown drawer Hview).
Defined.

Lemma row_without_version_witness :
  exists r,
    row EntityVersionUtils.isMajorVersion "all" "1.1" (JNull : Json.value) 0
    = Some r
    /\ versionLabel r = "vNaN".
Proof.
  assert (forall props : list (string * Json.value),
            (JNull : Json.value) = JObject props ->
            Js.lookupProperty "version" props = JUndefined) as Hnull
    by (intros props Hprops; discriminate Hprops).
  destruct (row_without_version (H := referenceHost)
              EntityVersionUtils.isMajorVersion "all" "1.1" JNull 0 Hnull)
    as (_ & _ & Hmade & Hlabel).
  assert (is_Some (row EntityVersionUtils.isMajorVersion "all" "1.1"
                     (JNull : Json.value) 0)) as [r Hr].
  { apply Hmade. split_and!; vm_compute; eexists; reflexivity. }
  exists r. exact (conj Hr (Hlabel r Hr)).
Defined.

End MoreTimeLineSamples.

Section MoreFeedSamples.
Import ActivityFeedList Samples.

Lemma threads_not_empty : feedList (feedProps threads) <> [].
Proof. discriminate. Defined.

Lemma separators_are_days_witness :
  separatorLabels (render twoDays (feedProps threads) expanded5)
  = ["Today"; "Yesterday"].
Proof.
  exact (separators_are_days Owner twoDays (feedProps threads) expanded5
           _ _ eq_refl threads_not_empty).
Defined.

Lemma threadCards_by_day_witness :
  threadCards (render twoDays (feedProps threads) expanded5)
  = ["t2"; "t0"; "t5"].
Proof.
  exact (threadCards_by_day Owner twoDays (feedProps threads) expanded5
           _ _ eq_refl threads_not_empty).
Defined.

Lemma twoDays_labels (f : DatedThread) :
  f ∈ (twoDays threads).1 -> relativeDay f ∈ (twoDays threads).2.
Proof.
  cbn. intros Hf.
  apply elem_of_cons in Hf as [-> | Hf]; [apply elem_of_cons; right; by left|].
  apply elem_of_cons in Hf as [-> | Hf]; [by left|].
  apply elem_of_cons in Hf as [-> | Hf]; [by left|].
  by apply elem_of_nil in Hf.
Defined.

Lemma twoDays_distinct : NoDup (twoDays threads).2.
Proof.
  apply NoDup_cons. split.
  - intros Hin. apply list_elem_of_singleton in Hin. discriminate Hin.
  - apply NoDup_singleton.
Defined.

Lemma threadCards_once_witness :
  threadCards (render twoDays (feedProps threads) expanded5)
  ≡ₚ ["t5"; "t2"; "t0"].
Proof.
  exact (threadCards_once Owner twoDays (feedProps threads) expanded5
           _ _ eq_refl threads_not_empty twoDays_distinct twoDays_labels).
Defined.

Lemma editors_selected_witness :
  (1 <= editors (render twoDays (feedProps threads) expanded5))%nat
  /\ (editors (render twoDays (feedProps threads) expanded5) <= 1)%nat.
Proof.
  destruct (editors_selected Owner twoDays (feedProps threads) expanded5
              _ _ eq_refl threads_not_empty) as (_ & Hone & Hmost).
  split.
  - apply (Hone {| thread := thread5; relativeDay := "Yesterday" |}).
    + by left.
    + apply elem_of_cons. right. by left.
    + reflexivity.
  - apply Hmost; [exact twoDays_distinct|].
    cbn. apply NoDup_cons. split.
    { intros Hin. apply elem_of_cons in Hin as [Hin|Hin]; [discriminate Hin|].
      apply list_elem_of_singleton in Hin. discriminate Hin. }
    apply NoDup_cons. split.
    { intros Hin. apply list_elem_of_singleton in Hin. discriminate Hin. }
    apply NoDup_singleton.
Defined.

Lemma thread5_listed : thread5 ∈ feedList (feedProps threads).
Proof. by left. Defined.

Lemma viewAll_shows_panel_witness :
  panels (render twoDays (feedProps threads)
            (viewAllClick (feedProps threads) expanded5))
  = [(thread5, true)].
Proof.
  destruct (viewAll_shows_panel Owner twoDays (feedProps threads) expanded5
              thread5 thread5_listed eq_refl eq_refl)
    as (t' & Hfind & _ & _ & Hpanels).
  injection Hfind as <-. exact Hpanels.
Defined.

Lemma escape_after_viewAll_witness :
  state (keydown "Escape" clicked5) = expanded5
  /\ panels (render twoDays (feedProps threads)
               (state (keydown "Escape" clicked5))) = [].
Proof.
  destruct (escape_after_viewAll Owner twoDays
              {| props := feedProps threads;
                 state := expanded5;
                 keydownListener := true |} eq_refl)
    as (_ & Hpanels & Hback).
  exact (conj (Hback eq_refl eq_refl) Hpanels).
Defined.

Lemma feedListChange_keeps_witness :
  state (feedListChange [thread2; thread0] panel5) = state panel5
  /\ panels (render twoDays (props (feedListChange [thread2; thread0] panel5))
               (state (feedListChange [thread2; thread0] panel5)))
     = [(thread5, true)].
Proof.
  assert (forall t, t ∈ [thread2; thread0] ->
                    id t <> selctedThreadId (state panel5)) as Hnone.
  { intros t Ht.
    apply elem_of_cons in Ht as [-> | Ht]; [discriminate|].
    apply elem_of_cons in Ht as [-> | Ht]; [discriminate|].
    by apply elem_of_nil in Ht. }
  destruct (feedListChange_keeps Owner twoDays panel5 [thread2; thread0]
              Hnone) as (Hstate & _ & _ & Hpanel).
  split; [exact Hstate|].
  apply Hpanel; [reflexivity|discriminate|reflexivity|reflexivity].
Defined.

Lemma mount_view_witness :
  state (mount (feedProps threads)) = initialState
  /\ editors (render twoDays (feedProps threads)
                (state (mount (feedProps threads)))) = 0%nat.
Proof.
  assert (forall t, t ∈ threads -> id t <> "") as Hids.
  { intros t Ht.
    apply elem_of_cons in Ht as [-> | Ht]; [discriminate|].
    apply elem_of_cons in Ht as [-> | Ht]; [discriminate|].
    apply elem_of_cons in Ht as [-> | Ht]; [discriminate|].
    by apply elem_of_nil in Ht. }
  assert (forall f, f ∈ (twoDays threads).1 -> id (thread f) <> "")
    as Hupdated.
  { intros f Hf.
    apply elem_of_cons in Hf as [-> | Hf]; [discriminate|].
    apply elem_of_cons in Hf as [-> | Hf]; [discriminate|].
    apply elem_of_cons in Hf as [-> | Hf]; [discriminate|].
    by apply elem_of_nil in Hf. }
  destruct (mount_view Owner twoDays (feedProps threads) _ _ eq_refl
              threads_not_empty Hids Hupdated)
    as (Hstate & _ & _ & Heditors).
  exact (conj Hstate Heditors).
Defined.

Lemma keydown_sequence_witness :
  state (foldl (fun c key => keydown key c) panel5 ["a"; "Escape"; "Enter"])
  = onCancel (state panel5)
  /\ state (foldl (fun c key => keydown key c) (unmount panel5)
              ["a"; "Escape"; "Enter"])
     = state panel5.
Proof.
  destruct (keydown_sequence Owner ["a"; "Escape"; "Enter"] panel5)
    as (_ & _ & _ & _ & _ & Hon).
  destruct (keydown_sequence Owner ["a"; "Escape"; "Enter"] (unmount panel5))
    as (_ & _ & _ & _ & Hoff & _).
  split.
  - apply Hon; [reflexivity|]. apply elem_of_cons. right. by left.
  - exact (Hoff eq_refl).
Defined.

End MoreFeedSamples.
